(** * The element cache of the element_cache_demo example

    A shallow embedding of the class [ElementCache]
    (.history/examples/element_cache_demo/cache/element_cache_20250312173940.py)
    and of the fail-soft accessor [get_cached_elements]
    (examples/element_cache_demo/llm_ui_tester.py), with the properties
    the specification states about them. *)

From Stdlib Require Import ZArith String Ascii Lia.
From Stdlib Require Import OrderedTypeEx.
From stdpp Require Import base option list gmap strings sorting pretty.

Local Open Scope string_scope.
Local Open Scope Z_scope.

(** ** Python values

    What [json.load] can return and [json.dump] can write.  A float is
    kept by an integer code that preserves the order of floats (only the
    order of clock readings is ever used). *)

#[local] Unset Elimination Schemes.
Inductive pyval :=
  | PyNone
  | PyBool (b : bool)
  | PyInt (n : Z)
  | PyFloat (x : Z)
  | PyStr (s : string)
  | PyList (l : list pyval)
  | PyDict (d : gmap string pyval).
#[local] Set Elimination Schemes.

(** The instances of [Exception] that the modelled code can meet. *)
Inductive exception :=
  | OSError (what : string)
  | JSONDecodeError
  | TypeError (what : string)
  | AttributeError (what : string)
  | RuntimeError (what : string).

Definition exc_str (e : exception) : string :=
  match e with
  | OSError s => s
  | JSONDecodeError => "Expecting value"
  | TypeError s => s
  | AttributeError s => s
  | RuntimeError s => s
  end.

Inductive result (A : Type) :=
  | Ok (a : A)
  | Raise (e : exception).
Arguments Ok {A} a.
Arguments Raise {A} e.

(** [len(v)]: a [TypeError] for a value that has no length (the length
    of a string is taken of its bytes; the code only prints it). *)
Definition py_len (v : pyval) : result nat :=
  match v with
  | PyStr s => Ok (String.length s)
  | PyList l => Ok (length l)
  | PyDict d => Ok (size d)
  | _ => Raise (TypeError "object has no len()")
  end.

(** ** Key derivation *)

(** A [Dict[str, str]] of URL parameters: its items in insertion order. *)
Abbreviation param_dict := (list (string * string)).

(** Python's order on the tuples of [params.items()]: by name, then by
    value; strings compare by code point, which is the byte order of
    their UTF-8 form. *)
Definition tuple_compare (p q : string * string) : comparison :=
  match String.compare p.1 q.1 with
  | Eq => String.compare p.2 q.2
  | c => c
  end.

Definition tuple_le (p q : string * string) : Prop := tuple_compare p q ≠ Gt.

#[global] Instance tuple_le_dec : RelDecision tuple_le.
Proof. intros p q. unfold tuple_le. destruct (tuple_compare p q); [left|left|right]; congruence. Defined.

(** [sorted(items)] *)
Definition sorted (items : param_dict) : param_dict := merge_sort tuple_le items.

(** [f"{k}={v}"] *)
Definition render_param (kv : string * string) : string := kv.1 ++ "=" ++ kv.2.

(** [not params]: [None] and the empty dict are both falsy. *)
Definition falsy_params (params : option param_dict) : bool :=
  match params with
  | None | Some [] => true
  | Some (_ :: _) => false
  end.

(** [ElementCache._generate_cache_key] *)
Definition _generate_cache_key (url : string) (params : option param_dict) : string :=
  match params with
  | None | Some [] => url
  | Some items =>
      let param_str := String.concat "&" (render_param <$> sorted items) in
      url ++ "?" ++ param_str
  end.

(** The part of a key after the question mark. *)
Definition param_str (items : param_dict) : string :=
  String.concat "&" (render_param <$> sorted items).

(** The name/value pairs of a parameter argument, and when two arguments
    hold the same set of pairs.  The items of a dict have distinct
    names. *)
Definition items_of (params : option param_dict) : param_dict := default [] params.

Definition is_dict (items : param_dict) : Prop := NoDup items.*1.

Definition same_params (a b : option param_dict) : Prop :=
  ∀ kv, kv ∈ items_of a ↔ kv ∈ items_of b.

(** [c in s] for a character. *)
Fixpoint has_char (c : ascii) (s : string) : bool :=
  match s with
  | EmptyString => false
  | String d s' => Ascii.eqb c d || has_char c s'
  end.

(** Names free of the two separators, values free of the joining one. *)
Definition plain_param (kv : string * string) : Prop :=
  has_char "=" kv.1 = false ∧ has_char "&" kv.1 = false ∧ has_char "&" kv.2 = false.

Definition plain_params (params : option param_dict) : Prop :=
  Forall plain_param (items_of params).

(** ** [hashlib.md5]

    The digest that names the durable files (RFC 1321), on 32-bit words
    kept in [Z] with the wrap-around written out. *)

Module MD5.

Definition wrap (x : Z) : Z := x mod 2 ^ 32.

Definition rotl (x : Z) (c : Z) : Z :=
  wrap (Z.lor (Z.shiftl x c) (Z.shiftr x (32 - c))).

Definition lnot32 (x : Z) : Z := Z.lxor x 4294967295.

Definition K : list Z :=
  [ 3614090360; 3905402710; 606105819; 3250441966; 4118548399; 1200080426;
    2821735955; 4249261313; 1770035416; 2336552879; 4294925233; 2304563134;
    1804603682; 4254626195; 2792965006; 1236535329; 4129170786; 3225465664;
    643717713; 3921069994; 3593408605; 38016083; 3634488961; 3889429448;
    568446438; 3275163606; 4107603335; 1163531501; 2850285829; 4243563512;
    1735328473; 2368359562; 4294588738; 2272392833; 1839030562; 4259657740;
    2763975236; 1272893353; 4139469664; 3200236656; 681279174; 3936430074;
    3572445317; 76029189; 3654602809; 3873151461; 530742520; 3299628645;
    4096336452; 1126891415; 2878612391; 4237533241; 1700485571; 2399980690;
    4293915773; 2240044497; 1873313359; 4264355552; 2734768916; 1309151649;
    4149444226; 3174756917; 718787259; 3951481745 ].

Definition S : list Z :=
  [ 7; 12; 17; 22; 7; 12; 17; 22; 7; 12; 17; 22; 7; 12; 17; 22;
    5; 9; 14; 20; 5; 9; 14; 20; 5; 9; 14; 20; 5; 9; 14; 20;
    4; 11; 16; 23; 4; 11; 16; 23; 4; 11; 16; 23; 4; 11; 16; 23;
    6; 10; 15; 21; 6; 10; 15; 21; 6; 10; 15; 21; 6; 10; 15; 21 ].

Definition state : Type := Z * Z * Z * Z.

Definition init : state := (1732584193, 4023233417, 2562383102, 271733878).

(** One of the 64 operations on the words [M] of a block. *)
Definition round (M : list Z) (st : state) (i : nat) : state :=
  let '(A, B, C, D) := st in
  let '(F, g) :=
    if (i <? 16)%nat then (Z.lor (Z.land B C) (Z.land (lnot32 B) D), i)
    else if (i <? 32)%nat then
      (Z.lor (Z.land D B) (Z.land (lnot32 D) C), ((5 * i + 1) mod 16)%nat)
    else if (i <? 48)%nat then (Z.lxor (Z.lxor B C) D, ((3 * i + 5) mod 16)%nat)
    else (Z.lxor C (Z.lor B (lnot32 D)), ((7 * i) mod 16)%nat) in
  let F' := wrap (F + A + nth i K 0 + nth g M 0) in
  (D, wrap (B + rotl F' (nth i S 0)), B, C).

Definition block (st : state) (M : list Z) : state :=
  let '(a0, b0, c0, d0) := st in
  let '(A, B, C, D) := foldl (round M) st (seq 0 64) in
  (wrap (a0 + A), wrap (b0 + B), wrap (c0 + C), wrap (d0 + D)).

(** Little-endian words of a byte sequence. *)
Fixpoint words (fuel : nat) (bs : list Z) : list Z :=
  match fuel, bs with
  | Datatypes.S fuel, b0 :: b1 :: b2 :: b3 :: rest =>
      (b0 + 256 * b1 + 65536 * b2 + 16777216 * b3) :: words fuel rest
  | _, _ => []
  end.

Fixpoint blocks (fuel : nat) (ws : list Z) : list (list Z) :=
  match fuel, ws with
  | Datatypes.S fuel, _ :: _ => take 16 ws :: blocks fuel (drop 16 ws)
  | _, _ => []
  end.

Definition le_bytes (n : nat) (x : Z) : list Z :=
  (fun i => Z.shiftr x (8 * Z.of_nat i) mod 256) <$> seq 0 n.

Definition pad (msg : list Z) : list Z :=
  let len := length msg in
  let zeros := ((119 - len mod 64) mod 64)%nat in
  msg ++ [128] ++ replicate zeros 0 ++ le_bytes 8 (8 * Z.of_nat len).

Definition digest (msg : list Z) : state :=
  let bs := pad msg in
  foldl block init (blocks (length bs) (words (length bs) bs)).

Definition hexdigit (n : Z) : ascii :=
  match n with
  | 0 => "0" | 1 => "1" | 2 => "2" | 3 => "3" | 4 => "4" | 5 => "5"
  | 6 => "6" | 7 => "7" | 8 => "8" | 9 => "9" | 10 => "a" | 11 => "b"
  | 12 => "c" | 13 => "d" | 14 => "e" | _ => "f"
  end%char.

Definition hexbyte (b : Z) (rest : string) : string :=
  String (hexdigit (b / 16)) (String (hexdigit (b mod 16)) rest).

Definition hexword (w : Z) (rest : string) : string :=
  hexbyte (w mod 256)
    (hexbyte (Z.shiftr w 8 mod 256)
       (hexbyte (Z.shiftr w 16 mod 256)
          (hexbyte (Z.shiftr w 24 mod 256) rest))).

(** [str.encode()]: the bytes of the string. *)
Definition encode (s : string) : list Z :=
  (fun c => Z.of_N (N_of_ascii c)) <$> list_ascii_of_string s.

(** [hashlib.md5(s.encode()).hexdigest()] *)
Definition hexdigest (s : string) : string :=
  let '(a, b, c, d) := digest (encode s) in
  hexword a (hexword b (hexword c (hexword d ""))).

End MD5.


(** ** The interpreter state and the storage layer *)

(** A metadata record: a dict whose four fields may each be absent (the
    code reads them with [.get] and with [in]). *)
Record meta := Meta {
  m_url : option string;
  m_timestamp : option Z;
  m_element_count : option Z;
  m_version : option Z
}.

Definition empty_meta : meta := Meta None None None None.

Definition put (k : string) (o : option pyval) (d : gmap string pyval) : gmap string pyval :=
  match o with
  | Some v => <[k:=v]> d
  | None => d
  end.

(** The JSON form of a metadata record, and the typed reading of a
    loaded one.  A field of another type than [_save_metadata] writes is
    read as absent. *)
Definition meta_to_py (m : meta) : pyval :=
  PyDict (put "url" (PyStr <$> m_url m)
         (put "timestamp" (PyFloat <$> m_timestamp m)
         (put "element_count" (PyInt <$> m_element_count m)
         (put "version" (PyInt <$> m_version m) ∅)))).

Definition as_str (v : pyval) : option string :=
  match v with PyStr s => Some s | _ => None end.
Definition as_int (v : pyval) : option Z :=
  match v with PyInt n => Some n | _ => None end.
Definition as_float (v : pyval) : option Z :=
  match v with PyFloat x => Some x | _ => None end.

Definition as_meta (v : pyval) : meta :=
  match v with
  | PyDict d =>
      {| m_url := d !! "url" ≫= as_str;
         m_timestamp := d !! "timestamp" ≫= as_float;
         m_element_count := d !! "element_count" ≫= as_int;
         m_version := d !! "version" ≫= as_int |}
  | _ => empty_meta
  end.

Definition metadata_to_py (md : gmap string meta) : pyval := PyDict (meta_to_py <$> md).

Definition as_metadata (v : pyval) : gmap string meta :=
  match v with
  | PyDict d => as_meta <$> d
  | _ => ∅
  end.

(** A file of the cache directory: a JSON document, or bytes that
    [json.load] rejects (an empty or truncated file among them). *)
Inductive file :=
  | JsonDoc (v : pyval)
  | Garbage.

(** The calls to the storage layer that can fail. *)
Inductive io_call :=
  | MakeDirs
  | OpenRead (f : string)
  | ReadData (f : string)
  | OpenWrite (f : string)
  | WriteData (f : string)
  | Remove (f : string).

Inductive level := DEBUG | INFO | WARNING | ERROR.

(** The state a method runs in: the two dicts of the [ElementCache]
    object, the content of its [cache_dir] by file name, the records the
    logger has received, and how many storage calls and clock readings
    have been made so far. *)
Record world := World {
  cache : gmap string pyval;
  metadata : gmap string meta;
  disk : gmap string file;
  log : list (level * string);
  io_calls : nat;
  time_calls : nat
}.

Definition set_cache (f : gmap string pyval → gmap string pyval) (w : world) : world :=
  World (f (cache w)) (metadata w) (disk w) (log w) (io_calls w) (time_calls w).
Definition set_metadata (f : gmap string meta → gmap string meta) (w : world) : world :=
  World (cache w) (f (metadata w)) (disk w) (log w) (io_calls w) (time_calls w).
Definition set_disk (f : gmap string file → gmap string file) (w : world) : world :=
  World (cache w) (metadata w) (f (disk w)) (log w) (io_calls w) (time_calls w).
Definition add_log (r : level * string) (w : world) : world :=
  World (cache w) (metadata w) (disk w) (log w ++ [r]) (io_calls w) (time_calls w).
Definition count_io (w : world) : world :=
  World (cache w) (metadata w) (disk w) (log w) (S (io_calls w)) (time_calls w).
Definition count_time (w : world) : world :=
  World (cache w) (metadata w) (disk w) (log w) (io_calls w) (S (time_calls w)).

(** Computations that return or raise, over the state.  What a
    computation did before it raised stays done. *)
Definition Py (A : Type) : Type := world → result A * world.

#[global] Instance Py_ret : MRet Py := λ A a w, (Ok a, w).
#[global] Instance Py_bind : MBind Py := λ A B f m w,
  match m w with
  | (Ok a, w') => f a w'
  | (Raise e, w') => (Raise e, w')
  end.

Definition raise {A} (e : exception) : Py A := λ w, (Raise e, w).

(** [try: body  except Exception as e: handler e] *)
Definition try_except {A} (body : Py A) (handler : exception → Py A) : Py A := λ w,
  match body w with
  | (Ok a, w') => (Ok a, w')
  | (Raise e, w') => handler e w'
  end.

Definition get_world : Py world := λ w, (Ok w, w).
Definition modify (f : world → world) : Py unit := λ w, (Ok tt, f w).
Definition lift {A} (r : result A) : Py A := λ w, (r, w).

Definition logger (l : level) (msg : string) : Py unit := modify (add_log (l, msg)).

(** [s.endswith(suffix)] *)
Fixpoint endswith (s suffix : string) : bool :=
  String.eqb s suffix ||
  match s with
  | EmptyString => false
  | String _ s' => endswith s' suffix
  end.

(** The parameter of a method and [if url:]. *)
Definition truthy (url : option string) : option string :=
  match url with
  | Some EmptyString | None => None
  | Some u => Some u
  end.

(** ** The accessor of the UI tester

    [get_cached_elements] of llm_ui_tester.py (the same in
    ui_test_demo.py).  The context is probed with [hasattr]; awaiting an
    accessor runs it to its result. *)

Module UiTester.

Definition accessor : Type := string → bool → Py pyval.

(** The object under [context.cache_manager], which may lack the
    method (it may be [None], for one). *)
Record manager := Manager {
  mgr_get_elements_with_cache : option accessor
}.

(** The two attributes of the context that the function looks for;
    [None] when [hasattr] is false. *)
Record context := Context {
  cache_manager : option manager;
  get_elements_with_cache : option accessor
}.

Definition get_cached_elements (ctx : context) (url : string) (force_refresh : bool)
    : Py pyval :=
  try_except
    (match cache_manager ctx with
     | Some mgr =>
         match mgr_get_elements_with_cache mgr with
         | Some get => get url force_refresh
         | None => raise (AttributeError "get_elements_with_cache")
         end
     | None =>
         match get_elements_with_cache ctx with
         | Some get => get url force_refresh
         | None =>
             logger WARNING "no cache method found, returning an empty cache";;
             mret (PyDict ∅)
         end
     end)
    (λ e,
     logger ERROR ("getting the cached elements failed: " ++ exc_str e);;
     mret (PyDict ∅)).

(** An empty dict returned after one record is logged. *)
Definition empty_with (l : level) (msg : string) (w : world) : result pyval * world :=
  (Ok (PyDict ∅), add_log (l, msg) w).

(** Two accessors to try the function on. *)
Definition failing_accessor : accessor := λ _ _, raise (RuntimeError "page is closed").
Definition constant_accessor (v : pyval) : accessor := λ _ _, mret v.

(** *** Finding elements on the page

    [is_element_hidden], [find_element_by_text] and
    [find_input_element] of llm_ui_tester.py. *)

(** [s.startswith(prefix)] *)
Fixpoint startswith (s prefix : string) : bool :=
  match prefix, s with
  | EmptyString, _ => true
  | String c prefix', String d s' => Ascii.eqb c d && startswith s' prefix'
  | String _ _, EmptyString => false
  end.

(** [needle in s] for strings *)
Fixpoint contains (needle s : string) : bool :=
  startswith s needle ||
  match s with
  | EmptyString => false
  | String _ s' => contains needle s'
  end.

(** A node of the selector map, by what the functions probe: an
    optional field is an attribute that [hasattr] may not find (for
    [input_type], one that [getattr] reads as [None]). *)
Record element := Element {
  tag_name : string;
  is_hidden : option bool;
  is_interactive : option bool;
  attributes : option (gmap string string);
  get_all_text_till_next_clickable_element : option string;
  input_type : option string;
  selector : option string
}.

(** [dom_state.selector_map.items()], in the order of the dict. *)
Abbreviation selector_map := (list (Z * element)).

Section Finders.

(** [str.lower] *)
Variable lower : string → string.

Definition is_element_hidden (e : element) : bool :=
  match is_hidden e with
  | Some hidden => hidden
  | None =>
      match attributes e with
      | Some attrs =>
          let style := lower (default "" (attrs !! "style")) in
          if contains "display: none" style || contains "visibility: hidden" style then true
          else if decide (is_Some (attrs !! "hidden")) then true
          else false
      | None => false
      end
  end.

(** The text of an element, as [find_element_by_text] takes it. *)
Definition element_text (e : element) : string :=
  match get_all_text_till_next_clickable_element e with
  | Some text => text
  | None =>
      match attributes e with
      | Some attrs => default "" (attrs !! "innerText")
      | None => ""
      end
  end.

(** [tag_names and element.tag_name.lower() not in [t.lower() for t in tag_names]] *)
Definition tag_excluded (tag_names : option (list string)) (e : element) : bool :=
  match tag_names with
  | None | Some [] => false
  | Some tags => negb (bool_decide (lower (tag_name e) ∈ lower <$> tags))
  end.

(** The loop of [find_element_by_text]. *)
Fixpoint find_text_in (text_content : string) (tag_names : option (list string))
    (exact_match interactive_only : bool) (items : selector_map) : option Z :=
  match items with
  | [] => None
  | (index, e) :: rest =>
      let continue := find_text_in text_content tag_names exact_match interactive_only rest in
      if interactive_only && negb (default false (is_interactive e)) then continue
      else if is_element_hidden e then continue
      else if tag_excluded tag_names e then continue
      else if exact_match then
        if String.eqb (element_text e) text_content then Some index else continue
      else
        if contains text_content (element_text e) then Some index else continue
  end.

(** [get_state] stands for [context.get_state]. *)
Definition find_element_by_text (get_state : Py selector_map) (text_content : string)
    (tag_names : option (list string)) (exact_match interactive_only : bool)
    : Py (option Z) :=
  dom_state ← get_state;
  mret (find_text_in text_content tag_names exact_match interactive_only dom_state).

(** [if s:] for an optional string argument. *)
Definition given (s : option string) : bool :=
  match s with
  | None | Some EmptyString => false
  | Some _ => true
  end.

(** The type of an input as [find_input_element] reads it: the
    [input_type] attribute, else the [type] of the attribute dict. *)
Definition element_type (e : element) : option string :=
  match input_type e with
  | Some t => Some t
  | None =>
      match attributes e with
      | Some attrs => Some (default "" (attrs !! "type"))
      | None => None
      end
  end.

(** The loop of [find_input_element]. *)
Fixpoint find_input_in (type placeholder : option string) (items : selector_map)
    : option Z :=
  match items with
  | [] => None
  | (index, e) :: rest =>
      let continue := find_input_in type placeholder rest in
      if negb (String.eqb (lower (tag_name e)) "input") then continue
      else if is_element_hidden e then continue
      else if given type && negb (bool_decide (element_type e = type))
              && negb (bool_decide (type = Some "text") && bool_decide (element_type e = Some ""))
      then continue
      else
        match attributes e with
        | Some attrs =>
            if given placeholder
               && negb (contains (lower (default "" placeholder))
                                 (lower (default "" (attrs !! "placeholder"))))
            then continue else Some index
        | None => Some index
        end
  end.

Definition find_input_element (get_state : Py selector_map)
    (type placeholder : option string) : Py (option Z) :=
  dom_state ← get_state;
  mret (find_input_in type placeholder dom_state).

(** What the two searches look for. *)
Definition tag_allowed (tag_names : option (list string)) (e : element) : Prop :=
  match tag_names with
  | None | Some [] => True
  | Some tags => ∃ t, t ∈ tags ∧ lower t = lower (tag_name e)
  end.

Definition substring (needle s : string) : Prop := ∃ before after, s = before ++ needle ++ after.

Definition text_match (text_content : string) (tag_names : option (list string))
    (exact_match interactive_only : bool) (e : element) : Prop :=
  (interactive_only = true → is_interactive e = Some true) ∧
  is_element_hidden e = false ∧
  tag_allowed tag_names e ∧
  (if exact_match then element_text e = text_content
   else substring text_content (element_text e)).

Definition input_match (type placeholder : option string) (e : element) : Prop :=
  lower (tag_name e) = "input" ∧
  is_element_hidden e = false ∧
  (given type = true → element_type e = type ∨ (type = Some "text" ∧ element_type e = Some "")) ∧
  (given placeholder = true → ∀ attrs, attributes e = Some attrs →
     substring (lower (default "" placeholder)) (lower (default "" (attrs !! "placeholder")))).

(** The first entry of a selector map that matches. *)
Definition first_match (P : element → Prop) (items : selector_map) (r : option Z) : Prop :=
  match r with
  | Some index =>
      ∃ (before : selector_map) e after,
        items = (before ++ (index, e) :: after)%list ∧ P e ∧ Forall (λ p, ¬ P p.2) before
  | None => Forall (λ p, ¬ P p.2) items
  end.

End Finders.


(** *** The actions of a controller

    [get_available_actions] of llm_ui_tester.py. *)

(** The registry of a controller, by what the function probes: the
    method [get_registered_actions] when it has one, and its members as
    [dir] lists them. *)
Record registry_t := Registry {
  get_registered_actions : option (Py (list string));
  dir : list string
}.

(** [registry] is [None] for a controller without the attribute. *)
Record controller_t := Controller {
  registry : option registry_t
}.

Section AvailableActions.

(** [str] of a list of strings *)
Variable str_list : list string → string.

Definition get_available_actions (controller : controller_t) : Py (list string) :=
  try_except
    (match registry controller with
     | None => raise (AttributeError "registry")
     | Some the_registry =>
         match get_registered_actions the_registry with
         | Some get => get
         | None =>
             let registry_members := dir the_registry in
             let action_methods :=
               List.filter (λ member, startswith member "action_"
                                      || endswith member "_action"
                                      || contains "execute" member) registry_members in
             (match action_methods with
              | [] => mret tt
              | _ :: _ => logger INFO ("发现可能的操作方法: " ++ str_list action_methods)
              end);;
             mret ["click_element"]
         end
     end)
    (λ e, logger WARNING ("获取可用操作失败: " ++ exc_str e);; mret ["click_element"]).

End AvailableActions.
End UiTester.

(** ** The report of a UI test

    [UITestStep] and [UITestReport] of llm_ui_tester.py.  A time is a
    clock reading, as in the cache; both classes have a [start_time]
    and an [end_time], those of the report are [test_start_time] and
    [test_end_time] here. *)

Record UITestStep := Step {
  name : string;
  description : string;
  start_time : Z;
  end_time : Z;
  success : bool;
  error_message : string
}.

(** [UITestStep.__init__] *)
Definition UITestStep_init (name description : string) : UITestStep :=
  Step name description 0 0 false "".

Record UITestReport := Report {
  test_name : string;
  steps : list UITestStep;
  test_start_time : Z;
  test_end_time : Z;
  total_standard_time : Z;
  total_cache_time : Z
}.

(** [UITestReport.__init__] *)
Definition UITestReport_init (test_name : string) : UITestReport :=
  Report test_name [] 0 0 0 0.

Definition add_step (step : UITestStep) (self : UITestReport) : UITestReport :=
  Report (test_name self) (steps self ++ [step]) (test_start_time self) (test_end_time self)
    (total_standard_time self) (total_cache_time self).

(** Computations of the test agent: they run over its report and the
    world, and keep what they did when they raise. *)
Definition Test (A : Type) : Type := UITestReport * world → result A * (UITestReport * world).

#[global] Instance Test_ret : MRet Test := λ A a s, (Ok a, s).
#[global] Instance Test_bind : MBind Test := λ A B f m s,
  match m s with
  | (Ok a, s') => f a s'
  | (Raise e, s') => (Raise e, s')
  end.

Definition in_world {A} (m : Py A) : Test A := λ s,
  match m s.2 with
  | (r, w') => (r, (s.1, w'))
  end.

Definition on_report (f : UITestReport → UITestReport) : Test unit := λ s, (Ok tt, (f s.1, s.2)).

Definition reraise {A} (e : exception) : Test A := λ s, (Raise e, s).

(** [s * n] for a string *)
Fixpoint str_times (s : string) (n : nat) : string :=
  match n with
  | O => ""
  | S n' => s ++ str_times s n'
  end.

Definition newline : string := String "010"%char "".

Definition returned {A} (r : result A) : bool :=
  match r with
  | Ok _ => true
  | Raise _ => false
  end.

(** What a computation that only logs and reads the clock leaves as
    it was. *)
Definition storage_untouched (w w' : world) : Prop :=
  cache w' = cache w ∧ metadata w' = metadata w ∧ disk w' = disk w ∧
  io_calls w' = io_calls w.

(** ** Typing text into an element

    [input_text_to_element] of llm_ui_tester.py.  The function returns
    an [ActionResult] or ends in [raise Exception(msg)]: the second is
    the right side of the sum, with the message. *)

(** [dom_state.selector_map.get(element_index)] *)
Fixpoint selector_map_get (items : UiTester.selector_map) (element_index : Z)
    : option UiTester.element :=
  match items with
  | [] => None
  | (index, e) :: rest =>
      if bool_decide (index = element_index) then Some e
      else selector_map_get rest element_index
  end.

(** The script that the third method has the page evaluate. *)
Definition set_value_script (text : string) : string :=
  newline ++ str_times " " 20 ++ "selector => {" ++
  newline ++ str_times " " 24 ++ "const element = document.querySelector(selector);" ++
  newline ++ str_times " " 24 ++ "if (element) {" ++
  newline ++ str_times " " 28 ++ "element.value = '" ++ text ++ "';" ++
  newline ++ str_times " " 28 ++ "element.dispatchEvent(new Event('input', { bubbles: true }));" ++
  newline ++ str_times " " 28 ++ "element.dispatchEvent(new Event('change', { bubbles: true }));" ++
  newline ++ str_times " " 24 ++ "}" ++
  newline ++ str_times " " 20 ++ "}" ++
  newline ++ str_times " " 16.

Section TextInput.

(** The browser: the pages, the results of actions, and the calls the
    function makes.  [execute_action name index] is
    [controller.registry.execute_action(name, {"index": index}, context)],
    [ActionResult success content] is the constructor of the library,
    which validates its arguments. *)
Variable page : Type.
Variable action_result : Type.
Variable execute_action : string → Z → Py unit.
Variable get_current_page : Py page.
Variable keyboard_type : page → string → Py unit.
Variable fill : page → string → string → Py unit.
Variable evaluate : page → string → string → Py unit.
Variable get_state : Py UiTester.selector_map.
Variable ActionResult : bool → string → Py action_result.

(** The three [try] blocks; [None] when the block ends without a
    [return]. *)
Definition click_and_type (element_index : Z) (text : string) : Py (option action_result) :=
  try_except
    (execute_action "click_element" element_index;;
     logger INFO "元素点击成功";;
     page ← get_current_page;
     keyboard_type page text;;
     logger INFO "通过keyboard.type方法输入文本成功";;
     r ← ActionResult true ("已点击并输入文本: " ++ text);
     mret (Some r))
    (λ e, logger WARNING ("点击和键盘输入失败: " ++ exc_str e);; mret None).

Definition fill_element (element_index : Z) (text : string) : Py (option action_result) :=
  try_except
    (logger INFO "尝试使用元素选择器直接填充文本";;
     page ← get_current_page;
     dom_state ← get_state;
     match selector_map_get dom_state element_index ≫= UiTester.selector with
     | Some selector =>
         fill page selector text;;
         logger INFO "通过fill方法输入文本成功";;
         r ← ActionResult true ("已使用fill填充文本: " ++ text);
         mret (Some r)
     | None => mret None
     end)
    (λ e, logger WARNING ("使用fill方法填充文本失败: " ++ exc_str e);; mret None).

Definition set_value (element_index : Z) (text : string) : Py (option action_result) :=
  try_except
    (logger INFO "尝试使用JavaScript设置元素值";;
     page ← get_current_page;
     dom_state ← get_state;
     match selector_map_get dom_state element_index ≫= UiTester.selector with
     | Some selector =>
         evaluate page (set_value_script text) selector;;
         logger INFO "通过JavaScript设置元素值成功";;
         r ← ActionResult true ("已使用JavaScript设置文本: " ++ text);
         mret (Some r)
     | None => mret None
     end)
    (λ e, logger WARNING ("使用JavaScript设置元素值失败: " ++ exc_str e);; mret None).

Definition all_methods_failed : string := "所有输入文本的方法都失败".

Definition input_text_to_element (element_index : Z) (text : string)
    : Py (action_result + string) := λ w,
  let caught (msg : string) : Py (action_result + string) :=
    logger ERROR ("输入文本过程中发生错误: " ++ msg);;
    mret (inr ("无法输入文本到元素: " ++ msg)) in
  match
    (logger INFO "首先尝试点击元素";;
     r ← click_and_type element_index text;
     match r with
     | Some a => mret (inl a)
     | None =>
         r ← fill_element element_index text;
         match r with
         | Some a => mret (inl a)
         | None =>
             r ← set_value element_index text;
             match r with
             | Some a => mret (inl a)
             | None => mret (inr all_methods_failed)
             end
         end
     end) w
  with
  | (Ok (inl a), w') => (Ok (inl a), w')
  | (Ok (inr msg), w') => caught msg w'
  | (Raise e, w') => caught (exc_str e) w'
  end.

(** The contents of the results the function can return. *)
Definition success_contents (text : string) : list string :=
  ["已点击并输入文本: " ++ text; "已使用fill填充文本: " ++ text; "已使用JavaScript设置文本: " ++ text].

End TextInput.

(** ** A page and a browser to try the functions on *)

(** [str.lower] on ASCII text. *)
Definition ascii_lower_char (c : ascii) : ascii :=
  let n := nat_of_ascii c in
  if (65 <=? n)%nat && (n <=? 90)%nat then ascii_of_nat (n + 32) else c.

Fixpoint ascii_lower (s : string) : string :=
  match s with
  | EmptyString => EmptyString
  | String c s' => String (ascii_lower_char c) (ascii_lower s')
  end.

(** A login form: a heading, two inputs (the first with no type set,
    the second hidden by its style) and a button. *)
Definition login_page : UiTester.selector_map :=
  [ (0, UiTester.Element "div" None (Some false) (Some ∅)
          (Some "Welcome to Login") None None);
    (1, UiTester.Element "INPUT" None (Some true)
          (Some {[ "type" := ""; "placeholder" := "User Name" ]})
          (Some "") None (Some "#user"));
    (2, UiTester.Element "input" None (Some true)
          (Some {[ "type" := "password"; "style" := "Display: None" ]})
          (Some "") None (Some "#password"));
    (3, UiTester.Element "BUTTON" (Some false) (Some true) None
          (Some "Login") None (Some "#login")) ].

(** A browser whose click fails or works, whose keyboard works, and
    whose other page calls fail. *)
Definition click_works : string → Z → Py unit := λ _ _, mret tt.
Definition click_fails : string → Z → Py unit :=
  λ _ _, raise (RuntimeError "element is detached").
Definition current_page : Py unit := mret tt.
Definition keyboard_works : unit → string → Py unit := λ _ _, mret tt.
Definition page_call_fails : unit → string → string → Py unit :=
  λ _ _ _, raise (RuntimeError "page is closed").
Definition state_is (items : UiTester.selector_map) : Py UiTester.selector_map := mret items.
Definition state_fails : Py UiTester.selector_map := raise (RuntimeError "page is closed").
Definition make_result : bool → string → Py (bool * string) := λ success content,
  mret (success, content).

(** ** Environments and inputs to try the class on *)

Definition no_faults : nat → io_call → bool := λ _ _, false.

Definition deletions_fail : nat → io_call → bool := λ _ c,
  match c with
  | Remove _ => true
  | _ => false
  end.

Definition storage_down : nat → io_call → bool := λ _ _, true.

Definition wall_clock : nat → Z := λ n, 1741772380 + Z.of_nat n.

(** The element map of the scenario of the specification. *)
Definition input_element : pyval :=
  PyDict (<["tag_name":=PyStr "input"]> (<["xpath":=PyStr "//input[1]"]>
         (<["attributes":=PyDict {["type" := PyStr "text"]}]>
         (<["is_visible":=PyBool true]> (<["is_interactive":=PyBool true]>
         (<["is_in_viewport":=PyBool true]> (<["highlight_index":=PyInt 0]> ∅))))))).

Definition one_element : gmap string pyval := {["0" := input_element]}.

Definition three_elements : gmap string pyval :=
  <["0":=input_element]> (<["1":=input_element]> (<["2":=input_element]> ∅)).

(** ** The class [ElementCache] *)

Section ElementCache.

(** [hashlib.md5(s.encode()).hexdigest()]; [MD5.hexdigest] is the one
    the program runs with. *)
Variable md5_hexdigest : string → string.

(** The environment: whether the [n]-th storage call, being [c],
    fails, and what the [n]-th reading of [time.time()] is. *)
Variable io_fails : nat → io_call → bool.
Variable clock : nat → Z.

Definition io (c : io_call) : Py unit := λ w,
  if io_fails (io_calls w) c
  then (Raise (OSError "storage call failed"), count_io w)
  else (Ok tt, count_io w).

(** [time.time()] *)
Definition time_time : Py Z := λ w, (Ok (clock (time_calls w)), count_time w).

(** [os.path.exists(f)] *)
Definition os_path_exists (f : string) : Py bool := λ w,
  (Ok (bool_decide (is_Some (disk w !! f))), w).

(** [with open(f, 'r') as h: json.load(h)] *)
Definition json_load (f : string) : Py pyval :=
  io (OpenRead f);;
  w ← get_world;
  match disk w !! f with
  | None => raise (OSError "No such file or directory")
  | Some content =>
      io (ReadData f);;
      match content with
      | JsonDoc v => mret v
      | Garbage => raise JSONDecodeError
      end
  end.

(** [with open(f, 'w') as h: json.dump(v, h)]: opening truncates the
    file, the dump fills it. *)
Definition json_dump (v : pyval) (f : string) : Py unit :=
  io (OpenWrite f);;
  modify (set_disk <[f:=Garbage]>);;
  io (WriteData f);;
  modify (set_disk <[f:=JsonDoc v]>).

(** [os.remove(f)] *)
Definition os_remove (f : string) : Py unit :=
  io (Remove f);;
  w ← get_world;
  match disk w !! f with
  | None => raise (OSError "No such file or directory")
  | Some _ => modify (set_disk (delete f))
  end.

(** [os.listdir(self.cache_dir)] *)
Definition os_listdir : Py (list string) := λ w, (Ok (map_to_list (disk w)).*1, w).

Definition metadata_file : string := "metadata.json".

Definition _load_metadata : Py unit :=
  ex ← os_path_exists metadata_file;
  if ex : bool then
    try_except
      (v ← json_load metadata_file;
       modify (set_metadata (λ _, as_metadata v));;
       n ← lift (py_len v);
       logger INFO ("loaded cache metadata, entries: " ++ pretty n))
      (λ e,
       logger ERROR ("loading cache metadata failed: " ++ exc_str e);;
       modify (set_metadata (λ _, ∅)))
  else mret tt.

Definition _save_metadata : Py unit :=
  try_except
    (w ← get_world;
     json_dump (metadata_to_py (metadata w)) metadata_file)
    (λ e, logger ERROR ("saving cache metadata failed: " ++ exc_str e)).

(** The file of a key, by its name in [self.cache_dir]. *)
Definition _get_cache_file (cache_key : string) : string :=
  md5_hexdigest cache_key ++ ".json".

(** [os.makedirs(self.cache_dir, exist_ok=True)]: it raises when the
    directory cannot be made (the path is a file, or may not be
    created); the directory it ensures is the one whose content [disk]
    holds. *)
Definition os_makedirs : Py unit := io MakeDirs.

(** [ElementCache(cache_dir)] *)
Definition __init__ : Py unit :=
  modify (set_cache (λ _, ∅));;
  modify (set_metadata (λ _, ∅));;
  os_makedirs;;
  _load_metadata.

Definition get_elements (url : string) (params : option param_dict) : Py pyval :=
  let cache_key := _generate_cache_key url params in
  w ← get_world;
  match cache w !! cache_key with
  | Some elements =>
      logger DEBUG ("elements from the memory cache: " ++ cache_key);;
      mret elements
  | None =>
      let cache_file := _get_cache_file cache_key in
      ex ← os_path_exists cache_file;
      if ex : bool then
        try_except
          (elements ← json_load cache_file;
           modify (set_cache <[cache_key:=elements]>);;
           n ← lift (py_len elements);
           logger INFO ("elements from the file cache: " ++ cache_key
                        ++ ", elements: " ++ pretty n);;
           mret elements)
          (λ e,
           logger ERROR ("loading the cache file failed: " ++ exc_str e);;
           mret (PyDict ∅))
      else mret (PyDict ∅)
  end.

Definition store_elements (url : string) (elements : gmap string pyval)
    (params : option param_dict) : Py unit :=
  let cache_key := _generate_cache_key url params in
  modify (set_cache <[cache_key:=PyDict elements]>);;
  now ← time_time;
  w ← get_world;
  let record :=
    {| m_url := Some url;
       m_timestamp := Some now;
       m_element_count := Some (Z.of_nat (size elements));
       m_version := Some (default 0 (metadata w !! cache_key ≫= m_version) + 1) |} in
  modify (set_metadata <[cache_key:=record]>);;
  _save_metadata;;
  let cache_file := _get_cache_file cache_key in
  try_except
    (json_dump (PyDict elements) cache_file;;
     logger INFO ("cached " ++ pretty (size elements) ++ " elements under " ++ cache_key))
    (λ e, logger ERROR ("saving the cache file failed: " ++ exc_str e)).

Definition get_all_urls : Py (list string) := λ w,
  (Ok (omap m_url (map_to_list (metadata w)).*2), w).

Definition get_cache_info (url : string) (params : option param_dict) : Py meta :=
  let cache_key := _generate_cache_key url params in
  w ← get_world;
  mret (default empty_meta (metadata w !! cache_key)).

(** The body of [for filename in os.listdir(self.cache_dir)]. *)
Definition remove_json (filename : string) : Py unit :=
  if endswith filename ".json" then
    try_except
      (os_remove filename)
      (λ e, logger ERROR ("deleting the cache file failed: " ++ filename
                          ++ ", " ++ exc_str e))
  else mret tt.

Fixpoint for_each {A} (body : A → Py unit) (l : list A) : Py unit :=
  match l with
  | [] => mret tt
  | x :: l' => body x;; for_each body l'
  end.

Definition clear_cache (url : option string) (params : option param_dict) : Py unit :=
  match truthy url with
  | Some url =>
      let cache_key := _generate_cache_key url params in
      w ← get_world;
      (if decide (is_Some (cache w !! cache_key))
       then modify (set_cache (delete cache_key)) else mret tt);;
      (if decide (is_Some (metadata w !! cache_key))
       then modify (set_metadata (delete cache_key));; _save_metadata else mret tt);;
      let cache_file := _get_cache_file cache_key in
      ex ← os_path_exists cache_file;
      if ex : bool then
        try_except
          (os_remove cache_file;;
           logger INFO ("cleared the cache of " ++ cache_key))
          (λ e, logger ERROR ("deleting the cache file failed: " ++ exc_str e))
      else mret tt
  | None =>
      modify (set_cache (λ _, ∅));;
      modify (set_metadata (λ _, ∅));;
      _save_metadata;;
      names ← os_listdir;
      for_each remove_json names;;
      logger INFO "cleared the whole cache"
  end.

(** *** Sequences of calls *)

Inductive op :=
  | Store (url : string) (elements : gmap string pyval) (params : option param_dict)
  | Read (url : string) (params : option param_dict)
  | Info (url : string) (params : option param_dict)
  | ListUrls
  | Clear (url : option string) (params : option param_dict).

Definition exec (o : op) (w : world) : world :=
  match o with
  | Store url elements params => (store_elements url elements params w).2
  | Read url params => (get_elements url params w).2
  | Info url params => (get_cache_info url params w).2
  | ListUrls => (get_all_urls w).2
  | Clear url params => (clear_cache url params w).2
  end.

Definition run (ops : list op) (w : world) : world := foldl (λ w o, exec o w) w ops.

(** The world in which [ElementCache(cache_dir)] is evaluated, and the
    one it leaves. *)
Definition boot (d : gmap string file) : world := World ∅ ∅ d [] 0 0.
Definition new_cache (d : gmap string file) : world := (__init__ (boot d)).2.

(** *** Statements about a cache *)

(** What the storage layer may change: the files, the log and the count
    of storage calls. *)
Definition same_memory (w w' : world) : Prop :=
  cache w' = cache w ∧ metadata w' = metadata w ∧ time_calls w' = time_calls w.











(** *** More statements about a cache *)

(** No storage call fails. *)
Definition storage_works : Prop := ∀ n c, io_fails n c = false.

(** The operations that only ask. *)
Definition is_query (o : op) : bool :=
  match o with
  | Read _ _ | Info _ _ | ListUrls => true
  | Store _ _ _ | Clear _ _ => false
  end.

(** How many writes a key has had since it was last evicted, by its own
    eviction or by a clear-all. *)
Definition count_write (k : string) (n : nat) (o : op) : nat :=
  match o with
  | Store url _ params =>
      if decide (_generate_cache_key url params = k) then S n else n
  | Clear url params =>
      match truthy url with
      | Some u => if decide (_generate_cache_key u params = k) then 0%nat else n
      | None => 0%nat
      end
  | Read _ _ | Info _ _ | ListUrls => n
  end.

Definition writes_since_eviction (k : string) (ops : list op) : nat :=
  foldl (count_write k) 0%nat ops.

(** *** The report of a UI test: the methods

    [fixed n x] is [f"{x:.nf}"] and [percent a b] is
    [f"{a / b * 100:.2f}"], for times [x], [a] and [b]. *)

Variable fixed : nat → Z → string.
Variable percent : Z → Z → string.

(** [UITestStep.start] *)
Definition start (self : UITestStep) : Py UITestStep :=
  logger INFO ("执行步骤: " ++ name self ++ " - " ++ description self);;
  t ← time_time;
  mret (Step (name self) (description self) t (end_time self) (success self)
          (error_message self)).

(** [UITestStep.complete] *)
Definition complete (self : UITestStep) (success : bool) (error_message : string)
    : Py UITestStep :=
  t ← time_time;
  let self := Step (name self) (description self) (start_time self) t success error_message in
  let duration := end_time self - start_time self in
  (if success
   then logger INFO ("步骤 '" ++ name self ++ "' 成功完成，耗时: " ++ fixed 2 duration ++ "秒")
   else logger ERROR ("步骤 '" ++ name self ++ "' 失败，耗时: " ++ fixed 2 duration
                      ++ "秒, 错误: " ++ error_message));;
  mret self.

(** [UITestStep.duration] *)
Definition duration (self : UITestStep) : Z :=
  if bool_decide (0 < end_time self) then end_time self - start_time self else 0.

(** [UITestReport.start_test] *)
Definition start_test (self : UITestReport) : Py UITestReport :=
  logger INFO ("开始UI测试: " ++ test_name self);;
  t ← time_time;
  mret (Report (test_name self) (steps self) t (test_end_time self)
          (total_standard_time self) (total_cache_time self)).

(** The loop of [complete_test] over [enumerate(self.steps, 1)]. *)
Fixpoint log_steps (i : Z) (l : list UITestStep) : Py unit :=
  match l with
  | [] => mret tt
  | step :: rest =>
      let status := if success step then "✅ 成功" else "❌ 失败" in
      logger INFO ("  " ++ pretty i ++ ". " ++ name step ++ ": " ++ status
                   ++ " (" ++ fixed 2 (duration step) ++ "秒)");;
      (if negb (success step) then logger INFO ("     错误: " ++ error_message step)
       else mret tt);;
      log_steps (i + 1) rest
  end.

(** [UITestReport.complete_test]; it returns its verdict, and the
    report with the end time set. *)
Definition complete_test (self : UITestReport) : Py (bool * UITestReport) :=
  t ← time_time;
  let self := Report (test_name self) (steps self) (test_start_time self) t
                (total_standard_time self) (total_cache_time self) in
  let duration := test_end_time self - test_start_time self in
  let total_steps := Z.of_nat (length (steps self)) in
  let successful_steps := Z.of_nat (length (filter (λ step, success step = true) (steps self))) in
  logger INFO (newline ++ str_times "=" 50);;
  logger INFO ("UI测试报告: " ++ test_name self);;
  logger INFO (str_times "=" 50);;
  logger INFO ("总耗时: " ++ fixed 2 duration ++ "秒");;
  logger INFO ("步骤总数: " ++ pretty total_steps);;
  logger INFO ("成功步骤: " ++ pretty successful_steps);;
  logger INFO ("失败步骤: " ++ pretty (total_steps - successful_steps));;
  (if bool_decide (0 < total_standard_time self) && bool_decide (0 < total_cache_time self)
   then
     let improvement :=
       percent (total_standard_time self - total_cache_time self) (total_standard_time self) in
     logger INFO (newline ++ "性能比较:");;
     logger INFO ("  标准操作总耗时: " ++ fixed 4 (total_standard_time self) ++ "秒");;
     logger INFO ("  缓存操作总耗时: " ++ fixed 4 (total_cache_time self) ++ "秒");;
     logger INFO ("  性能提升: " ++ improvement ++ "%")
   else mret tt);;
  logger INFO (newline ++ "步骤详情:");;
  log_steps 1 (steps self);;
  logger INFO (str_times "=" 50);;
  mret (bool_decide (successful_steps = total_steps), self).

(** [EnhancedUITestAgent.execute_step]: [step_func] is the awaited
    call, the report is [self.report].  The step is completed on either
    path and then added to the report ([finally]); completing and adding
    never raise. *)
Definition execute_step {A} (step_name step_description : string) (step_func : Test A)
    : Test A :=
  step ← in_world (start (UITestStep_init step_name step_description));
  (λ s,
    match step_func s with
    | (Ok result, s') =>
        (step ← in_world (complete step true "");
         on_report (add_step step);;
         mret result) s'
    | (Raise e, s') =>
        (step ← in_world (complete step false (exc_str e));
         on_report (add_step step);;
         reraise e) s'
    end) : Test A.

(** The verdict on a list of steps. *)
Definition all_succeeded (l : list UITestStep) : bool := forallb success l.

(** * Properties of the class *)

Ltac py_unfold :=
  unfold _save_metadata, json_dump, json_load, os_remove, os_path_exists, os_listdir,
    time_time, io, logger, modify, get_world, raise, lift, try_except,
    mbind, Py_bind, mret, Py_ret in *.

Ltac py_cases :=
  repeat match goal with
    | |- context [if io_fails ?n ?c then _ else _] => destruct (io_fails n c) eqn:?
    | |- context [match ?m !! ?k with _ => _ end] => destruct (m !! k) eqn:?
    end; simpl in *.

Lemma same_memory_refl (w : world) : same_memory w w.
Proof. done. Qed.

Lemma same_memory_trans (w1 w2 w3 : world) :
  same_memory w1 w2 → same_memory w2 w3 → same_memory w1 w3.
Proof. unfold same_memory. intros (-> & -> & ->) (-> & -> & ->). done. Qed.

Lemma save_metadata_spec (w : world) :
  ∃ w', _save_metadata w = (Ok tt, w') ∧ same_memory w w' ∧
        ∀ f, f ≠ metadata_file → disk w' !! f = disk w !! f.
Proof.
  py_unfold. py_cases; eexists; (split; [reflexivity|]); (split; [done|]);
    intros f Hf; simpl; by rewrite ?lookup_insert_ne.
Qed.

(** *** [store_elements] *)

Lemma store_elements_spec (url : string) (elements : gmap string pyval)
    (params : option param_dict) (w : world) :
  let cache_key := _generate_cache_key url params in
  ∃ w',
    store_elements url elements params w = (Ok tt, w') ∧
    cache w' = <[cache_key:=PyDict elements]> (cache w) ∧
    metadata w' =
      <[cache_key:=
          {| m_url := Some url;
             m_timestamp := Some (clock (time_calls w));
             m_element_count := Some (Z.of_nat (size elements));
             m_version := Some (default 0 (metadata w !! cache_key ≫= m_version) + 1) |}]>
        (metadata w) ∧
    time_calls w' = S (time_calls w) ∧
    (∀ f, f ≠ metadata_file → f ≠ _get_cache_file cache_key →
          disk w' !! f = disk w !! f).
Proof.
  intros cache_key. unfold store_elements. fold cache_key.
  py_unfold. simpl. py_cases; eexists; (split; [reflexivity|]); simpl;
    (split; [done|]); (split; [done|]); (split; [done|]);
    intros f Hf Hf'; by rewrite ?lookup_insert_ne.
Qed.

(** *** [get_elements] *)

Lemma get_elements_hit (url : string) (params : option param_dict) (w : world) (e : pyval) :
  let cache_key := _generate_cache_key url params in
  cache w !! cache_key = Some e →
  get_elements url params w
  = (Ok e, add_log (DEBUG, "elements from the memory cache: " ++ cache_key) w).
Proof. intros cache_key He. unfold get_elements. fold cache_key. py_unfold. by rewrite He. Qed.

Lemma get_elements_absent (url : string) (params : option param_dict) (w : world) :
  let cache_key := _generate_cache_key url params in
  cache w !! cache_key = None → disk w !! _get_cache_file cache_key = None →
  get_elements url params w = (Ok (PyDict ∅), w).
Proof.
  intros cache_key He Hf. unfold get_elements. fold cache_key. py_unfold.
  rewrite He. simpl. rewrite Hf. reflexivity.
Qed.

(** The file is there: the value of a read is decided by the load. *)
Lemma get_elements_load (url : string) (params : option param_dict) (w : world) :
  let cache_key := _generate_cache_key url params in
  cache w !! cache_key = None → is_Some (disk w !! _get_cache_file cache_key) →
  get_elements url params w =
    match json_load (_get_cache_file cache_key) w with
    | (Ok elements, w1) =>
        let w2 := set_cache <[cache_key:=elements]> w1 in
        match py_len elements with
        | Ok n =>
            (Ok elements,
             add_log (INFO, "elements from the file cache: " ++ cache_key
                            ++ ", elements: " ++ pretty n) w2)
        | Raise e =>
            (Ok (PyDict ∅),
             add_log (ERROR, "loading the cache file failed: " ++ exc_str e) w2)
        end
    | (Raise e, w1) =>
        (Ok (PyDict ∅), add_log (ERROR, "loading the cache file failed: " ++ exc_str e) w1)
    end.
Proof.
  intros cache_key He [c Hc]. unfold get_elements, json_load. fold cache_key.
  py_unfold. rewrite He. simpl. rewrite Hc. simpl.
  py_cases; simplify_eq; try done.
  destruct c as [elements|]; [|done]. by destruct (py_len elements).
Qed.

Lemma json_load_spec (f : string) (w : world) :
  ∃ r w', json_load f w = (r, w') ∧ same_memory w w' ∧ disk w' = disk w ∧ log w' = log w ∧
    match r with
    | Ok v => disk w !! f = Some (JsonDoc v)
    | Raise _ => True
    end.
Proof.
  unfold json_load. py_unfold. py_cases; try destruct f0; eexists _, _;
    (split; [reflexivity|]); simpl; done.
Qed.

Lemma get_elements_spec (url : string) (params : option param_dict) (w : world) :
  let cache_key := _generate_cache_key url params in
  ∃ v w',
    get_elements url params w = (Ok v, w') ∧
    metadata w' = metadata w ∧ disk w' = disk w ∧ time_calls w' = time_calls w ∧
    (cache w' = cache w ∨
     ∃ doc, cache w !! cache_key = None ∧
            disk w !! _get_cache_file cache_key = Some (JsonDoc doc) ∧
            cache w' = <[cache_key:=doc]> (cache w)).
Proof.
  intros cache_key. subst cache_key.
  destruct (cache w !! _generate_cache_key url params) as [e|] eqn:He.
  { rewrite (get_elements_hit url params w e He). eexists _, _. split; [done|]. simpl. auto. }
  destruct (disk w !! _get_cache_file (_generate_cache_key url params)) as [c|] eqn:Hf.
  2: { rewrite (get_elements_absent url params w He Hf). eexists _, _. split; [done|]. auto. }
  pose proof (get_elements_load url params w He (mk_is_Some _ _ Hf)) as Hl.
  cbv zeta in Hl. rewrite Hl. clear Hl.
  destruct (json_load_spec (_get_cache_file (_generate_cache_key url params)) w)
    as (r & w1 & Hj & (Hc & Hm & Ht) & Hd & _ & Hr).
  rewrite Hj.
  destruct r as [doc|e]; [destruct (py_len doc)|]; eexists _, _; (split; [done|]); simpl;
    (split; [done|]); (split; [done|]); (split; [done|]).
  - right. exists doc. rewrite Hc. split; [done|]. split; [congruence|done].
  - right. exists doc. rewrite Hc. split; [done|]. split; [congruence|done].
  - by left.
Qed.

(** *** [get_cache_info] and [get_all_urls] *)


(** *** [clear_cache] *)

Lemma endswith_refl (s : string) : endswith s s = true.
Proof. destruct s; [done|]. cbn [endswith]. by rewrite String.eqb_refl. Qed.

Lemma endswith_app (s suffix : string) : endswith (s ++ suffix) suffix = true.
Proof.
  induction s as [|c s IH]; [apply endswith_refl|].
  change (endswith (String c s ++ suffix) suffix)
    with (String.eqb (String c (s ++ suffix)) suffix || endswith (s ++ suffix) suffix).
  rewrite IH. apply orb_true_r.
Qed.

Lemma cache_file_json (cache_key : string) : endswith (_get_cache_file cache_key) ".json" = true.
Proof. apply endswith_app. Qed.

Lemma metadata_file_json : endswith metadata_file ".json" = true.
Proof. reflexivity. Qed.

Lemma os_remove_spec (f : string) (w : world) :
  ∃ r w', os_remove f w = (r, w') ∧ same_memory w w' ∧ log w' = log w ∧
    match r with
    | Ok _ => disk w' = delete f (disk w)
    | Raise _ => disk w' = disk w
    end ∧
    (io_fails (io_calls w) (Remove f) = false → disk w' !! f = None).
Proof.
  unfold os_remove. py_unfold. py_cases; eexists _, _; (split; [reflexivity|]); simpl;
    repeat split; try done; intros; by rewrite ?lookup_delete_eq.
Qed.

(** One pass of the loop of clear-all: a file can only go away, and a
    JSON file goes away unless its deletion fails. *)
Lemma remove_json_spec (filename : string) (w : world) :
  ∃ w', remove_json filename w = (Ok tt, w') ∧ same_memory w w' ∧
    (disk w' = disk w ∨ disk w' = delete filename (disk w)) ∧
    (endswith filename ".json" = false → disk w' = disk w) ∧
    (endswith filename ".json" = true →
     io_fails (io_calls w) (Remove filename) = false → disk w' !! filename = None).
Proof.
  unfold remove_json. destruct (endswith filename ".json") eqn:Hj.
  - unfold try_except.
    destruct (os_remove_spec filename w) as (r & w1 & -> & Hm & Hl & Hd & Hn).
    destruct r as [[]|e].
    + exists w1. split; [done|]. split; [done|]. split; [by right|]. split; [done|]. auto.
    + eexists. split; [reflexivity|]. unfold logger, modify, same_memory. simpl.
      split; [done|]. split; [by left|]. split; [done|]. auto.
  - exists w. split; [done|]. split; [done|]. split; [by left|]. split; [done|]. done.
Qed.

Lemma for_each_remove_json_spec (names : list string) (w : world) :
  ∃ w', for_each remove_json names w = (Ok tt, w') ∧ same_memory w w' ∧
    (∀ f, disk w' !! f = disk w !! f ∨ disk w' !! f = None) ∧
    (∀ f, endswith f ".json" = false → disk w' !! f = disk w !! f) ∧
    (∀ f, f ∈ names → endswith f ".json" = true →
          (∀ n, io_fails n (Remove f) = false) → disk w' !! f = None).
Proof.
  revert w. induction names as [|x names IH]; intros w.
  { exists w. repeat split; auto. intros f Hf. by apply elem_of_nil in Hf. }
  simpl. unfold mbind, Py_bind.
  destruct (remove_json_spec x w) as (w1 & -> & Hm1 & Hd1 & Hk1 & Hr1).
  destruct (IH w1) as (w2 & -> & Hm2 & Hd2 & Hk2 & Hr2).
  exists w2. split; [done|]. split; [by eapply same_memory_trans|].
  assert (Hmono : ∀ f, disk w1 !! f = disk w !! f ∨ disk w1 !! f = None).
  { intros f. destruct Hd1 as [->| ->]; [by left|].
    destruct (decide (f = x)) as [->|]; [right; apply lookup_delete_eq|].
    left. by apply lookup_delete_ne. }
  repeat split.
  - intros f. destruct (Hd2 f) as [->| ->]; auto.
  - intros f Hf. rewrite (Hk2 f Hf).
    destruct (decide (f = x)) as [->|Hne]; [by rewrite (Hk1 Hf)|].
    destruct Hd1 as [->| ->]; [done|]. by apply lookup_delete_ne.
  - intros f [->|Hf]%elem_of_cons Hj Hfault.
    + destruct (Hd2 x) as [->| ->]; auto.
    + auto.
Qed.

Lemma truthy_Some (url : option string) (s : string) :
  truthy url = Some s → url = Some s ∧ s ≠ "".
Proof. destruct url as [[|c t]|]; simpl; intros; by simplify_eq. Qed.

(** Eviction of one key. *)
Lemma clear_cache_key_spec (url : string) (params : option param_dict) (w : world) :
  let cache_key := _generate_cache_key url params in
  url ≠ "" →
  ∃ w',
    clear_cache (Some url) params w = (Ok tt, w') ∧
    cache w' = delete cache_key (cache w) ∧
    metadata w' = delete cache_key (metadata w) ∧
    time_calls w' = time_calls w ∧
    (∀ f, f ≠ metadata_file → f ≠ _get_cache_file cache_key → disk w' !! f = disk w !! f) ∧
    (∀ f, f ≠ metadata_file → disk w' !! f = disk w !! f ∨ disk w' !! f = None) ∧
    ((∀ n, io_fails n (Remove (_get_cache_file cache_key)) = false) →
     disk w' !! _get_cache_file cache_key = None).
Proof.
  intros cache_key Hurl. unfold clear_cache.
  assert (truthy (Some url) = Some url) as -> by (by destruct url).
  fold cache_key. unfold os_remove. py_unfold.
  repeat case_decide; simpl; py_cases;
    repeat match goal with
      | |- context [bool_decide ?P] => destruct (bool_decide_reflect P)
      end; simpl; py_cases.
  all: eexists; (split; [reflexivity|]); simpl.
  all: repeat split; try done.
  all: try (symmetry; apply delete_id; by apply eq_None_not_Some).
  all: try (intros g Hg1 Hg2; by rewrite ?lookup_delete_ne, ?lookup_insert_ne by done).
  all: try (intros g Hg1;
            destruct (decide (g = _get_cache_file cache_key)) as [->|Hg2];
            [ rewrite ?lookup_delete_eq, ?lookup_insert_ne by done; auto
            | left; by rewrite ?lookup_delete_ne, ?lookup_insert_ne by done ]).
  all: try (intros Hfault; by rewrite ?lookup_delete_eq).
  all: try (intros Hfault; by rewrite Hfault in *).
  all: try (intros Hfault; by apply eq_None_not_Some).
Qed.

Lemma listdir_elem_of (d : gmap string file) (f : string) :
  f ∈ (map_to_list d).*1 ↔ is_Some (d !! f).
Proof.
  rewrite list_elem_of_fmap. split.
  - intros ([g c] & -> & Hin). apply elem_of_map_to_list in Hin. by exists c.
  - intros [c Hc]. exists (f, c). split; [done|]. by apply elem_of_map_to_list.
Qed.

(** Clear-all. *)
Lemma clear_cache_all_spec (url : option string) (params : option param_dict) (w : world) :
  truthy url = None →
  ∃ w',
    clear_cache url params w = (Ok tt, w') ∧
    cache w' = ∅ ∧ metadata w' = ∅ ∧ time_calls w' = time_calls w ∧
    (∀ f, endswith f ".json" = false → disk w' !! f = disk w !! f) ∧
    (∀ f, f ≠ metadata_file → disk w' !! f = disk w !! f ∨ disk w' !! f = None) ∧
    (∀ f, endswith f ".json" = true → (∀ n, io_fails n (Remove f) = false) →
          disk w' !! f = None).
Proof.
  intros Hurl. unfold clear_cache. rewrite Hurl.
  unfold mbind, Py_bind, modify at 1 2. simpl.
  set (w1 := set_metadata (λ _, ∅) (set_cache (λ _, ∅) w)).
  destruct (save_metadata_spec w1) as (w2 & -> & (Hc2 & Hm2 & Ht2) & Hd2).
  unfold os_listdir.
  destruct (for_each_remove_json_spec (map_to_list (disk w2)).*1 w2)
    as (w3 & -> & (Hc3 & Hm3 & Ht3) & Hmono & Hkeep & Hgone).
  eexists. split; [reflexivity|]. simpl.
  split; [by rewrite Hc3, Hc2|]. split; [by rewrite Hm3, Hm2|].
  split; [by rewrite Ht3, Ht2|]. split; [|split].
  - intros f Hf. rewrite (Hkeep f Hf). apply Hd2. intros ->. by rewrite metadata_file_json in Hf.
  - intros f Hf. destruct (Hmono f) as [->|]; [|by right]. left. by apply Hd2.
  - intros f Hj Hfault. destruct (disk w2 !! f) as [c|] eqn:Hf.
    + apply Hgone; [|done..]. apply listdir_elem_of. by rewrite Hf.
    + destruct (Hmono f) as [->|]; done.
Qed.

(** [clear_cache] never raises. *)
Lemma clear_cache_total (url : option string) (params : option param_dict) (w : world) :
  ∃ w', clear_cache url params w = (Ok tt, w').
Proof.
  destruct (truthy url) as [u|] eqn:Hu.
  - destruct url as [[|c t]|]; simplify_eq/=.
    destruct (clear_cache_key_spec (String c t) params w) as (w' & ? & _); [done|]. eauto.
  - destruct (clear_cache_all_spec url params w Hu) as (w' & ? & _). eauto.
Qed.

(** * The claims about the store *)

(** C3.  A read after a write returns the element map that was
    written; a second write for the same location and parameters
    replaces the first, and the read then returns the second map and
    nothing of the first. *)
Theorem get_elements_after_store
    (url : string) (params : option param_dict) (first second : gmap string pyval) (w : world) :
  let w1 := (store_elements url first params w).2 in
  let w2 := (store_elements url second params w1).2 in
  (get_elements url params w1).1 = Ok (PyDict first) ∧
  (get_elements url params w2).1 = Ok (PyDict second).
Proof.
  intros w1 w2. subst w1 w2.
  destruct (store_elements_spec url first params w) as (w1 & -> & Hc1 & _).
  cbn [snd].
  destruct (store_elements_spec url second params w1) as (w2 & -> & Hc2 & _).
  cbn [snd]. split.
  - erewrite get_elements_hit; [done|]. rewrite Hc1. apply lookup_insert_eq.
  - erewrite get_elements_hit; [done|]. rewrite Hc2. apply lookup_insert_eq.
Qed.

Lemma json_load_raises (f : string) (w : world) :
  disk w !! f = None ∨ disk w !! f = Some Garbage ∨
    io_fails (io_calls w) (OpenRead f) = true ∨
    io_fails (S (io_calls w)) (ReadData f) = true →
  ∃ e w1, json_load f w = (Raise e, w1).
Proof.
  unfold json_load. py_unfold. intros H. simpl.
  destruct (io_fails (io_calls w) (OpenRead f)) eqn:H1; simpl; [by eexists _, _|].
  destruct (disk w !! f) as [c|] eqn:Hf; simpl; [|by eexists _, _].
  destruct (io_fails (S (io_calls w)) (ReadData f)) eqn:H2; simpl; [by eexists _, _|].
  destruct c; [|by eexists _, _]. destruct H as [?|[?|[?|?]]]; congruence.
Qed.

(** C5.  [get_elements] never raises.  With no entry in memory, it
    returns an empty dict when the durable file is missing, and also
    when the file cannot be loaded: it does not parse, opening or
    reading it fails, or the document in it has no length. *)
Theorem get_elements_never_raises (url : string) (params : option param_dict) (w : world) :
  let cache_key := _generate_cache_key url params in
  let cache_file := _get_cache_file cache_key in
  (∃ v w', get_elements url params w = (Ok v, w')) ∧
  (cache w !! cache_key = None → disk w !! cache_file = None →
     get_elements url params w = (Ok (PyDict ∅), w)) ∧
  (cache w !! cache_key = None →
     disk w !! cache_file = Some Garbage ∨
       io_fails (io_calls w) (OpenRead cache_file) = true ∨
       io_fails (S (io_calls w)) (ReadData cache_file) = true ∨
       (∃ v e, disk w !! cache_file = Some (JsonDoc v) ∧ py_len v = Raise e) →
     (get_elements url params w).1 = Ok (PyDict ∅)).
Proof.
  intros cache_key cache_file. split; [|split].
  - destruct (get_elements_spec url params w) as (v & w' & H & _). eauto.
  - apply get_elements_absent.
  - intros He Hbad.
    destruct (disk w !! cache_file) as [c|] eqn:Hf.
    + pose proof (get_elements_load url params w He (mk_is_Some _ _ Hf)) as Hl.
      cbv zeta in Hl. rewrite Hl. fold cache_key. fold cache_file.
      destruct (json_load_spec cache_file w) as (r & w1 & Hr & _ & _ & _ & Hdoc).
      rewrite Hr. destruct r as [doc|e]; [|done].
      rewrite Hf in Hdoc. injection Hdoc as ->.
      destruct Hbad as [?|[Ho|[Hd|(v & e & [= <-] & Hlen)]]]; [done| | |by rewrite Hlen].
      * destruct (json_load_raises cache_file w) as (e & w2 & Hr'); [auto|]. congruence.
      * destruct (json_load_raises cache_file w) as (e & w2 & Hr'); [auto|]. congruence.
    + by rewrite (get_elements_absent url params w He Hf).
Qed.

(** C6.  [store_elements] never raises, whatever the storage layer
    does, and always leaves the fresh element map and its metadata
    record in memory.  When the cache file cannot be opened for
    writing, the file keeps its old content and the failure is
    logged. *)
Theorem store_elements_keeps_memory
    (url : string) (elements : gmap string pyval) (params : option param_dict) (w : world) :
  let cache_key := _generate_cache_key url params in
  let cache_file := _get_cache_file cache_key in
  ∃ w',
    store_elements url elements params w = (Ok tt, w') ∧
    cache w' !! cache_key = Some (PyDict elements) ∧
    metadata w' !! cache_key =
      Some {| m_url := Some url;
              m_timestamp := Some (clock (time_calls w));
              m_element_count := Some (Z.of_nat (size elements));
              m_version := Some (default 0 (metadata w !! cache_key ≫= m_version) + 1) |} ∧
    ((∀ n, io_fails n (OpenWrite cache_file) = true) → cache_file ≠ metadata_file →
       disk w' !! cache_file = disk w !! cache_file ∧
       last (log w') = Some (ERROR, "saving the cache file failed: storage call failed")).
Proof.
  intros cache_key cache_file.
  unfold store_elements. fold cache_key. fold cache_file.
  py_unfold. simpl. py_cases; eexists; (split; [reflexivity|]); simpl;
    (split; [by rewrite lookup_insert_eq|]); (split; [by rewrite lookup_insert_eq|]);
    intros Hfault Hne; rewrite ?Hfault in *; try done;
    rewrite ?lookup_insert_ne by done; (split; [done|]); by rewrite last_snoc.
Qed.




(** C10, as amended.  A write to one key leaves the entry and the
    metadata record of every other key as they were, and every file but
    the metadata file and the file of the written key; so does the
    eviction of a key whose location is not the empty string. *)
Theorem other_keys_untouched
    (url1 url2 : string) (params1 params2 : option param_dict)
    (elements : gmap string pyval) (w : world) :
  let key1 := _generate_cache_key url1 params1 in
  let key2 := _generate_cache_key url2 params2 in
  key1 ≠ key2 →
  (let w' := (store_elements url1 elements params1 w).2 in
   cache w' !! key2 = cache w !! key2 ∧ metadata w' !! key2 = metadata w !! key2 ∧
   ∀ f, f ≠ metadata_file → f ≠ _get_cache_file key1 → disk w' !! f = disk w !! f) ∧
  (url1 ≠ "" →
   let w' := (clear_cache (Some url1) params1 w).2 in
   cache w' !! key2 = cache w !! key2 ∧ metadata w' !! key2 = metadata w !! key2 ∧
   ∀ f, f ≠ metadata_file → f ≠ _get_cache_file key1 → disk w' !! f = disk w !! f).
Proof.
  intros key1 key2 Hne. split.
  - destruct (store_elements_spec url1 elements params1 w) as (w' & -> & Hc & Hm & _ & Hd).
    cbn [snd]. rewrite Hc, Hm. by rewrite !lookup_insert_ne by done.
  - intros Hurl.
    destruct (clear_cache_key_spec url1 params1 w Hurl) as (w' & -> & Hc & Hm & _ & Hd & _).
    cbn [snd]. rewrite Hc, Hm. by rewrite !lookup_delete_ne by done.
Qed.

(** *** Sequences of calls *)

Lemma run_cons (o : op) (ops : list op) (w : world) : run (o :: ops) w = run ops (exec o w).
Proof. done. Qed.

Lemma new_cache_empty : new_cache ∅ = count_io (boot ∅).
Proof.
  unfold new_cache, __init__, os_makedirs, io, modify, mbind, Py_bind. simpl.
  by destruct (io_fails 0 MakeDirs).
Qed.




(** *** The entry and its metadata record *)




Lemma as_meta_to_py (m : meta) : as_meta (meta_to_py m) = m.
Proof. destruct m as [[u|] [t|] [n|] [v|]]; reflexivity. Qed.

Lemma as_metadata_to_py (md : gmap string meta) : as_metadata (metadata_to_py md) = md.
Proof.
  unfold as_metadata, metadata_to_py. rewrite <- map_fmap_compose.
  rewrite <- (map_fmap_id md) at 2. apply map_fmap_ext. intros k m _. apply as_meta_to_py.
Qed.

Lemma init_spec (w : world) :
  ∃ r w',
    __init__ w = (r, w') ∧ cache w' = ∅ ∧ disk w' = disk w ∧
    (disk w !! metadata_file = None → metadata w' = ∅ ∧ log w' = log w) ∧
    if io_fails (io_calls w) MakeDirs
    then r = Raise (OSError "storage call failed") ∧ metadata w' = ∅ ∧ log w' = log w
    else
      r = Ok tt ∧
      (is_Some (disk w !! metadata_file) →
       disk w !! metadata_file = Some Garbage ∨
         io_fails (S (io_calls w)) (OpenRead metadata_file) = true ∨
         io_fails (S (S (io_calls w))) (ReadData metadata_file) = true →
       metadata w' = ∅ ∧
       ∃ e, last (log w') = Some (ERROR, "loading cache metadata failed: " ++ exc_str e)) ∧
      (∀ md, disk w !! metadata_file = Some (JsonDoc (metadata_to_py md)) →
       io_fails (S (io_calls w)) (OpenRead metadata_file) = false →
       io_fails (S (S (io_calls w))) (ReadData metadata_file) = false →
       metadata w' = md).
Proof.
  unfold __init__, os_makedirs, _load_metadata, json_load. py_unfold. simpl.
  destruct (io_fails (io_calls w) MakeDirs) eqn:H0; simpl.
  { eexists _, _. split; [reflexivity|]. simpl. done. }
  destruct (disk w !! metadata_file) as [c|] eqn:Hf; simpl.
  2: { eexists _, _. split; [reflexivity|]. simpl. repeat split; try done.
       all: by intros [? ?]. }
  destruct (io_fails (S (io_calls w)) (OpenRead metadata_file)) eqn:H1; simpl.
  { eexists _, _. split; [reflexivity|]. simpl. repeat split; try done.
    all: exists (OSError "storage call failed"); by rewrite last_snoc. }
  rewrite Hf. simpl.
  destruct (io_fails (S (S (io_calls w))) (ReadData metadata_file)) eqn:H2; simpl.
  { eexists _, _. split; [reflexivity|]. simpl. repeat split; try done.
    all: exists (OSError "storage call failed"); by rewrite last_snoc. }
  destruct c as [v|]; simpl.
  2: { eexists _, _. split; [reflexivity|]. simpl. repeat split; try done.
       all: exists JSONDecodeError; by rewrite last_snoc. }
  destruct (py_len v) as [n|e] eqn:Hlen; simpl.
  - eexists _, _. split; [reflexivity|]. simpl. split; [done|]. split; [done|].
    split; [done|]. split; [done|]. split; [by intros _ [?|[?|?]]|].
    intros md [= ->] _ _. apply as_metadata_to_py.
  - eexists _, _. split; [reflexivity|]. simpl. split; [done|]. split; [done|].
    split; [done|]. split; [done|]. split; [by intros _ [?|[?|?]]|].
    intros md [= ->] _ _. done.
Qed.

(** *** The central invariant *)








(** * Further properties of the class *)

(** *** Persistence *)

Lemma store_elements_no_fault
    (url : string) (elements : gmap string pyval) (params : option param_dict) (w : world) :
  let cache_key := _generate_cache_key url params in
  let w' := (store_elements url elements params w).2 in
  storage_works → _get_cache_file cache_key ≠ metadata_file →
  disk w' !! _get_cache_file cache_key = Some (JsonDoc (PyDict elements)) ∧
  disk w' !! metadata_file = Some (JsonDoc (metadata_to_py (metadata w'))).
Proof.
  intros cache_key w' Hio Hne. subst w'. unfold store_elements. fold cache_key.
  py_unfold. simpl. rewrite !Hio. simpl.
  split; [by rewrite lookup_insert_eq|].
  by rewrite !(lookup_insert_ne _ (_get_cache_file cache_key)), lookup_insert_eq by done.
Qed.

(** X1.  When no storage call fails, a write leaves the element map in
    the file of its key and the whole in-memory metadata in
    [metadata.json]. *)
Theorem store_elements_persists
    (url : string) (elements : gmap string pyval) (params : option param_dict) (w : world) :
  let cache_key := _generate_cache_key url params in
  let w' := (store_elements url elements params w).2 in
  storage_works → _get_cache_file cache_key ≠ metadata_file →
  disk w' !! _get_cache_file cache_key = Some (JsonDoc (PyDict elements)) ∧
  disk w' !! metadata_file = Some (JsonDoc (metadata_to_py (metadata w'))).
Proof. apply store_elements_no_fault. Qed.

(** X2.  [ElementCache(cache_dir)] raises exactly when [os.makedirs]
    does, and then raises that error with nothing loaded or logged; in
    either case the in-memory cache is empty and no file is written.
    When the directory is there, it returns: without a [metadata.json]
    it starts with empty metadata and logs nothing; with one that
    cannot be loaded (it does not parse, or opening or reading it
    fails) it starts with empty metadata and logs an error; with one
    that [_save_metadata] wrote it starts with the metadata saved. *)
Theorem init_raises_only_with_makedirs (w : world) :
  ∃ r w',
    __init__ w = (r, w') ∧ cache w' = ∅ ∧ disk w' = disk w ∧
    (disk w !! metadata_file = None → metadata w' = ∅ ∧ log w' = log w) ∧
    if io_fails (io_calls w) MakeDirs
    then r = Raise (OSError "storage call failed") ∧ metadata w' = ∅ ∧ log w' = log w
    else
      r = Ok tt ∧
      (is_Some (disk w !! metadata_file) →
       disk w !! metadata_file = Some Garbage ∨
         io_fails (S (io_calls w)) (OpenRead metadata_file) = true ∨
         io_fails (S (S (io_calls w))) (ReadData metadata_file) = true →
       metadata w' = ∅ ∧
       ∃ e, last (log w') = Some (ERROR, "loading cache metadata failed: " ++ exc_str e)) ∧
      (∀ md, disk w !! metadata_file = Some (JsonDoc (metadata_to_py md)) →
       io_fails (S (io_calls w)) (OpenRead metadata_file) = false →
       io_fails (S (S (io_calls w))) (ReadData metadata_file) = false →
       metadata w' = md).
Proof. apply init_spec. Qed.

(** X3.  A cache written to disk survives the process: when no storage
    call fails, a new [ElementCache] on the directory of a write starts
    with the metadata of the old one, and a read returns the element
    map written and brings it into memory. *)
Theorem restart_reads_back
    (url : string) (elements : gmap string pyval) (params : option param_dict) (w : world) :
  let cache_key := _generate_cache_key url params in
  let w1 := (store_elements url elements params w).2 in
  let w2 := (__init__ w1).2 in
  storage_works → _get_cache_file cache_key ≠ metadata_file →
  cache w2 = ∅ ∧ metadata w2 = metadata w1 ∧
  (get_elements url params w2).1 = Ok (PyDict elements) ∧
  cache (get_elements url params w2).2 !! cache_key = Some (PyDict elements) ∧
  (get_cache_info url params w2).1 = (get_cache_info url params w1).1.
Proof.
  intros cache_key w1 w2 Hio Hne.
  destruct (store_elements_no_fault url elements params w Hio Hne) as [Hfile Hmeta].
  fold cache_key in Hfile. fold w1 in Hfile, Hmeta.
  destruct (init_spec w1) as (r & w2' & Hrun & Hc & Hd & _ & Hinit).
  rewrite Hio in Hinit. destruct Hinit as (_ & _ & Hload).
  assert (w2 = w2') as -> by (subst w2; by rewrite Hrun).
  assert (Hm : metadata w2' = metadata w1) by (by apply Hload).
  split; [done|]. split; [done|].
  assert (Hnone : cache w2' !! cache_key = None) by (by rewrite Hc, lookup_empty).
  assert (Hsome : is_Some (disk w2' !! _get_cache_file cache_key))
    by (rewrite Hd, Hfile; by eexists).
  pose proof (get_elements_load url params w2' Hnone Hsome) as Hl. cbv zeta in Hl.
  rewrite Hl. fold cache_key. unfold json_load. py_unfold. simpl. rewrite !Hio. simpl.
  rewrite Hd, Hfile. simpl. rewrite Hio. simpl.
  split; [done|]. split; [by rewrite lookup_insert_eq|].
  unfold get_cache_info. py_unfold. simpl. by rewrite Hm.
Qed.

(** *** Reading *)

(** X4.  A read that loads the file of a key brings the document into
    memory: the reads that follow return it whatever has become of the
    directory, without a storage call. *)
Theorem get_elements_loads_once
    (url : string) (params : option param_dict) (doc : gmap string pyval) (w : world)
    (later : gmap string file) :
  let cache_key := _generate_cache_key url params in
  let first := get_elements url params w in
  let second := get_elements url params (set_disk (λ _, later) first.2) in
  cache w !! cache_key = None →
  disk w !! _get_cache_file cache_key = Some (JsonDoc (PyDict doc)) →
  io_fails (io_calls w) (OpenRead (_get_cache_file cache_key)) = false →
  io_fails (S (io_calls w)) (ReadData (_get_cache_file cache_key)) = false →
  first.1 = Ok (PyDict doc) ∧ second.1 = Ok (PyDict doc) ∧
  io_calls second.2 = io_calls first.2.
Proof.
  intros cache_key first second Hnone Hfile H1 H2. subst second first.
  pose proof (get_elements_load url params w Hnone (mk_is_Some _ _ Hfile)) as Hl.
  cbv zeta in Hl. rewrite Hl. fold cache_key. unfold json_load. py_unfold. simpl.
  rewrite H1. simpl. rewrite Hfile. simpl. rewrite H2. simpl. split; [done|].
  erewrite get_elements_hit; [done|]. simpl. fold cache_key. by rewrite lookup_insert_eq.
Qed.

(** X5.  A file that holds a JSON document with no length (a number, a
    boolean, [null]) is read as an empty dict once, with an error
    logged, but the document stays in memory: the next read returns the
    document itself. *)
Theorem get_elements_keeps_document_without_length
    (url : string) (params : option param_dict) (doc : pyval) (e : exception) (w : world) :
  let cache_key := _generate_cache_key url params in
  let first := get_elements url params w in
  cache w !! cache_key = None →
  disk w !! _get_cache_file cache_key = Some (JsonDoc doc) →
  py_len doc = Raise e →
  io_fails (io_calls w) (OpenRead (_get_cache_file cache_key)) = false →
  io_fails (S (io_calls w)) (ReadData (_get_cache_file cache_key)) = false →
  first.1 = Ok (PyDict ∅) ∧
  last (log first.2) = Some (ERROR, "loading the cache file failed: " ++ exc_str e) ∧
  (get_elements url params first.2).1 = Ok doc.
Proof.
  intros cache_key first Hnone Hfile Hlen H1 H2. subst first.
  pose proof (get_elements_load url params w Hnone (mk_is_Some _ _ Hfile)) as Hl.
  cbv zeta in Hl. rewrite Hl. fold cache_key. unfold json_load. py_unfold. simpl.
  rewrite H1. simpl. rewrite Hfile. simpl. rewrite H2. simpl. rewrite Hlen. simpl.
  split; [done|]. split; [by rewrite last_snoc|].
  erewrite get_elements_hit; [done|]. simpl. fold cache_key. by rewrite lookup_insert_eq.
Qed.

Lemma exec_query (o : op) (w : world) :
  is_query o = true →
  metadata (exec o w) = metadata w ∧ disk (exec o w) = disk w ∧
  time_calls (exec o w) = time_calls w.
Proof.
  destruct o as [url elements params|url params|url params| |url params]; try done; intros _.
  simpl. destruct (get_elements_spec url params w) as (v & w' & -> & Hm & Hd & Ht & _). done.
Qed.

(** X6.  Reads, [get_cache_info] and [get_all_urls] never write: a
    sequence of them leaves the metadata and every file as they were. *)
Theorem queries_change_nothing_durable (ops : list op) (w : world) :
  forallb is_query ops = true →
  metadata (run ops w) = metadata w ∧ disk (run ops w) = disk w.
Proof.
  revert w. induction ops as [|o ops IH]; intros w; [done|].
  cbn [forallb]. intros [Ho Hops]%andb_true_iff. rewrite run_cons.
  destruct (exec_query o w Ho) as (Hm & Hd & _).
  destruct (IH (exec o w) Hops) as [-> ->]. done.
Qed.

Lemma exec_keeps_other_files (o : op) (w : world) (f : string) :
  endswith f ".json" = false → disk (exec o w) !! f = disk w !! f.
Proof.
  intros Hf.
  assert (Hmeta : f ≠ metadata_file) by (intros ->; by rewrite metadata_file_json in Hf).
  assert (Hkey : ∀ k, f ≠ _get_cache_file k) by (intros k ->; by rewrite cache_file_json in Hf).
  destruct o as [url elements params|url params|url params| |url params]; simpl.
  - destruct (store_elements_spec url elements params w) as (w' & -> & _ & _ & _ & Hd).
    by apply Hd.
  - destruct (get_elements_spec url params w) as (v & w' & -> & _ & Hd & _). simpl.
    by rewrite Hd.
  - done.
  - done.
  - destruct (truthy url) as [u|] eqn:Hu.
    + apply truthy_Some in Hu as [-> Hu].
      destruct (clear_cache_key_spec u params w Hu) as (w' & -> & _ & _ & _ & Hd & _).
      by apply Hd.
    + destruct (clear_cache_all_spec url params w Hu) as (w' & -> & _ & _ & _ & Hkeep & _).
      by apply Hkeep.
Qed.

(** X7.  No operation of the cache, and no storage fault during one,
    ever creates, changes or deletes a file whose name does not end in
    [.json]. *)
Theorem other_files_untouched (ops : list op) (w : world) (f : string) :
  endswith f ".json" = false → disk (run ops w) !! f = disk w !! f.
Proof.
  intros Hf. revert w. induction ops as [|o ops IH]; intros w; [done|].
  rewrite run_cons, IH. by apply exec_keeps_other_files.
Qed.

(** *** Eviction *)

(** X8.  The eviction of a key that has no entry, no metadata record
    and no file changes nothing at all: no file is written, nothing is
    logged, no storage call is made.  So a second eviction of a key
    whose file was deleted by the first is without effect. *)
Theorem clear_cache_unknown_key (url : string) (params : option param_dict) (w : world) :
  let cache_key := _generate_cache_key url params in
  url ≠ "" →
  (cache w !! cache_key = None → metadata w !! cache_key = None →
   disk w !! _get_cache_file cache_key = None →
   clear_cache (Some url) params w = (Ok tt, w)) ∧
  ((∀ n, io_fails n (Remove (_get_cache_file cache_key)) = false) →
   let w1 := (clear_cache (Some url) params w).2 in
   clear_cache (Some url) params w1 = (Ok tt, w1)).
Proof.
  intros cache_key Hurl.
  assert (Hnoop : ∀ w0, cache w0 !! cache_key = None → metadata w0 !! cache_key = None →
            disk w0 !! _get_cache_file cache_key = None →
            clear_cache (Some url) params w0 = (Ok tt, w0)).
  { intros w0 Hc Hm Hf. unfold clear_cache.
    assert (truthy (Some url) = Some url) as -> by (by destruct url).
    fold cache_key. py_unfold. simpl.
    rewrite !decide_False by (rewrite ?Hc, ?Hm; by intros [? ?]). simpl.
    rewrite Hf. reflexivity. }
  split; [apply Hnoop|].
  intros Hdel w1. subst w1.
  destruct (clear_cache_key_spec url params w Hurl)
    as (w1 & -> & Hc & Hm & _ & _ & _ & Hgone).
  cbn [snd]. apply Hnoop.
  - rewrite Hc. apply lookup_delete_eq.
  - rewrite Hm. apply lookup_delete_eq.
  - by apply Hgone.
Qed.


(** *** Keys, locations and versions *)

(** X10.  Parameters are folded into the key as a query string, so a
    location that already carries that query string, with no
    parameters, has the same key: what is written under the one is read
    back under the other. *)
Theorem query_string_aliases_params
    (url : string) (items : param_dict) (elements : gmap string pyval) (w : world) :
  let aliased := url ++ "?" ++ param_str items in
  items ≠ [] →
  _generate_cache_key aliased None = _generate_cache_key url (Some items) ∧
  (get_elements aliased None (store_elements url elements (Some items) w).2).1
    = Ok (PyDict elements).
Proof.
  intros aliased Hitems.
  assert (Hkey : _generate_cache_key aliased None = _generate_cache_key url (Some items)).
  { destruct items as [|kv items]; [done|]. reflexivity. }
  split; [done|].
  destruct (store_elements_spec url elements (Some items) w) as (w' & -> & Hc & _).
  cbn [snd]. erewrite get_elements_hit; [done|]. rewrite Hkey, Hc. apply lookup_insert_eq.
Qed.




Lemma exec_counts_writes (k : string) (n : nat) (o : op) (w : world) :
  (∀ m, metadata w !! k = Some m → is_Some (m_version m)) →
  metadata w !! k ≫= m_version = (if n is O then None else Some (Z.of_nat n)) →
  (∀ m, metadata (exec o w) !! k = Some m → is_Some (m_version m)) ∧
  metadata (exec o w) !! k ≫= m_version
    = (if count_write k n o is O then None else Some (Z.of_nat (count_write k n o))).
Proof.
  intros Hver Hn.
  destruct o as [url elements params|url params|url params| |url params]; simpl.
  - destruct (store_elements_spec url elements params w) as (w' & -> & _ & Hm & _).
    cbn [snd]. rewrite Hm. case_decide as Hk.
    + subst k. rewrite lookup_insert_eq. split; [intros m [= <-]; by eexists|].
      simpl. rewrite Hn. destruct n; simpl; f_equal; lia.
    + rewrite lookup_insert_ne by done. done.
  - destruct (get_elements_spec url params w) as (v & w' & -> & Hm & _). cbn [snd].
    by rewrite Hm.
  - done.
  - done.
  - destruct (truthy url) as [u|] eqn:Hu.
    + apply truthy_Some in Hu as [-> Hu]. simpl. destruct u as [|c t]; [done|].
      destruct (clear_cache_key_spec (String c t) params w Hu) as (w' & -> & _ & Hm & _).
      cbn [snd]. rewrite Hm. case_decide as Hk.
      * subst k. rewrite lookup_delete_eq. done.
      * rewrite lookup_delete_ne by done. done.
    + destruct (clear_cache_all_spec url params w Hu) as (w' & -> & _ & Hm & _).
      cbn [snd]. rewrite Hm, lookup_empty. done.
Qed.

(** X12.  In a run that starts on an empty directory, whatever the
    storage layer does, the version of a key is the number of writes it
    has had since it was last evicted (by its own eviction or by a
    clear-all), and the key has no metadata record when that number
    is 0. *)
Theorem version_counts_writes (ops : list op) (k : string) :
  let w := run ops (new_cache ∅) in
  let n := writes_since_eviction k ops in
  (n = 0%nat → metadata w !! k = None) ∧
  (n ≠ 0%nat → ∃ m, metadata w !! k = Some m ∧ m_version m = Some (Z.of_nat n)).
Proof.
  intros w n.
  assert (Hgen : ∀ ops w0 n0,
    (∀ m, metadata w0 !! k = Some m → is_Some (m_version m)) →
    metadata w0 !! k ≫= m_version = (if n0 is O then None else Some (Z.of_nat n0)) →
    (∀ m, metadata (run ops w0) !! k = Some m → is_Some (m_version m)) ∧
    metadata (run ops w0) !! k ≫= m_version
      = (if foldl (count_write k) n0 ops is O then None
         else Some (Z.of_nat (foldl (count_write k) n0 ops)))).
  { clear. induction ops as [|o ops IH]; intros w0 n0 Hver Hn; [done|].
    rewrite run_cons. simpl.
    destruct (exec_counts_writes k n0 o w0 Hver Hn) as [Hver' Hn']. by apply IH. }
  destruct (Hgen ops (new_cache ∅) 0%nat) as [Hver Hn].
  { rewrite new_cache_empty. intros m. simpl. by rewrite lookup_empty. }
  { rewrite new_cache_empty. simpl. by rewrite lookup_empty. }
  fold w in Hver, Hn. change (foldl (count_write k) 0%nat ops) with n in Hn.
  split.
  - intros Hz. rewrite Hz in Hn. destruct (metadata w !! k) as [m|] eqn:Hm; [|done].
    destruct (Hver m eq_refl) as [v Hv]. simpl in Hn. congruence.
  - intros Hnz. destruct n; [done|].
    destruct (metadata w !! k) as [m|] eqn:Hm; [|done]. exists m. done.
Qed.

(** *** The report of a UI test *)

Lemma storage_untouched_refl (w : world) : storage_untouched w w.
Proof. done. Qed.

Lemma storage_untouched_trans (w1 w2 w3 : world) :
  storage_untouched w1 w2 → storage_untouched w2 w3 → storage_untouched w1 w3.
Proof. unfold storage_untouched. intros (-> & -> & -> & ->) (-> & -> & -> & ->). done. Qed.

Lemma start_spec (self : UITestStep) (w : world) :
  ∃ w', start self w
          = (Ok (Step (name self) (description self) (clock (time_calls w)) (end_time self)
                   (success self) (error_message self)), w') ∧
        storage_untouched w w' ∧ time_calls w' = S (time_calls w).
Proof. unfold start. py_unfold. simpl. eexists. split; [done|]. done. Qed.

Lemma complete_spec (self : UITestStep) (ok : bool) (msg : string) (w : world) :
  ∃ w', complete self ok msg w
          = (Ok (Step (name self) (description self) (start_time self) (clock (time_calls w))
                   ok msg), w') ∧
        storage_untouched w w' ∧ time_calls w' = S (time_calls w).
Proof.
  unfold complete. py_unfold. destruct ok; simpl; (eexists; split; [done|]); done.
Qed.

Lemma log_steps_spec (l : list UITestStep) (i : Z) (w : world) :
  ∃ w', log_steps i l w = (Ok tt, w') ∧ storage_untouched w w' ∧
        time_calls w' = time_calls w.
Proof.
  revert i w. induction l as [|step rest IH]; intros i w; [by exists w|].
  cbn [log_steps]. py_unfold.
  destruct (success step); cbn [negb].
  - destruct (IH (i + 1) (add_log (INFO, "  " ++ pretty i ++ ". " ++ name step ++ ": "
        ++ "✅ 成功" ++ " (" ++ fixed 2 (duration step) ++ "秒)") w)) as (w' & -> & Hs & Ht).
    exists w'. done.
  - destruct (IH (i + 1) (add_log (INFO, "     错误: " ++ error_message step)
        (add_log (INFO, "  " ++ pretty i ++ ". " ++ name step ++ ": "
        ++ "❌ 失败" ++ " (" ++ fixed 2 (duration step) ++ "秒)") w))) as (w' & -> & Hs & Ht).
    exists w'. done.
Qed.

Lemma count_successes (l : list UITestStep) :
  bool_decide (Z.of_nat (length (filter (λ step, success step = true) l))
               = Z.of_nat (length l)) = all_succeeded l.
Proof.
  unfold all_succeeded.
  assert (Hle : ∀ l' : list UITestStep,
            (length (filter (λ step, success step = true) l') ≤ length l')%nat)
    by (intros l'; apply length_filter).
  induction l as [|step rest IH]; [done|].
  cbn [forallb]. rewrite filter_cons. destruct (success step) eqn:Hs.
  - rewrite decide_True by done. cbn [length andb]. rewrite <- IH.
    apply bool_decide_ext. lia.
  - rewrite decide_False by done. cbn [length andb].
    apply bool_decide_eq_false. specialize (Hle rest). lia.
Qed.

Lemma complete_test_spec (self : UITestReport) (w : world) :
  ∃ w', complete_test self w
          = (Ok (all_succeeded (steps self),
                 Report (test_name self) (steps self) (test_start_time self)
                   (clock (time_calls w)) (total_standard_time self) (total_cache_time self)),
             w') ∧
        storage_untouched w w' ∧ time_calls w' = S (time_calls w).
Proof.
  unfold complete_test. py_unfold. cbn [steps test_name test_start_time test_end_time
    total_standard_time total_cache_time].
  rewrite count_successes.
  destruct (bool_decide (0 < total_standard_time self)
            && bool_decide (0 < total_cache_time self)); cbn [fst snd].
  - match goal with |- context [log_steps 1 (steps self) ?w0] =>
      destruct (log_steps_spec (steps self) 1 w0) as (w1 & -> & Hs & Ht) end.
    eexists. split; [done|]. unfold storage_untouched in *.
    cbn [cache metadata disk io_calls time_calls add_log count_time] in Hs, Ht.
    destruct Hs as (? & ? & ? & ?).
    cbn [cache metadata disk io_calls time_calls add_log]. repeat split; congruence.
  - match goal with |- context [log_steps 1 (steps self) ?w0] =>
      destruct (log_steps_spec (steps self) 1 w0) as (w1 & -> & Hs & Ht) end.
    eexists. split; [done|]. unfold storage_untouched in *.
    cbn [cache metadata disk io_calls time_calls add_log count_time] in Hs, Ht.
    destruct Hs as (? & ? & ? & ?).
    cbn [cache metadata disk io_calls time_calls add_log]. repeat split; congruence.
Qed.

(** X18.  [complete_test] never raises and returns [True] exactly
    when every step of the report has succeeded, so also for a report
    with no step; it sets the end time of the report and, besides
    logging and reading the clock, nothing else. *)
Theorem complete_test_verdict (self : UITestReport) (w : world) :
  ∃ verdict self' w',
    complete_test self w = (Ok (verdict, self'), w') ∧
    (verdict = true ↔ ∀ step, step ∈ steps self → success step = true) ∧
    (steps self = [] → verdict = true) ∧
    steps self' = steps self ∧ test_end_time self' = clock (time_calls w) ∧
    storage_untouched w w'.
Proof.
  destruct (complete_test_spec self w) as (w' & -> & Hs & _).
  eexists _, _, w'. split; [done|]. split; [|split; [|done]].
  - unfold all_succeeded. rewrite forallb_forall. split; intros H step Hin.
    + apply H. by apply list_elem_of_In.
    + apply H. by apply list_elem_of_In.
  - by intros ->.
Qed.

Lemma execute_step_spec {A} (step_name step_description : string) (step_func : Test A)
    (report : UITestReport) (w : world) :
  let w0 := (start (UITestStep_init step_name step_description) w).2 in
  match step_func (report, w0) with
  | (r, (report1, w1)) =>
      ∃ w2,
        execute_step step_name step_description step_func (report, w)
          = (r, (add_step (Step step_name step_description (clock (time_calls w))
                            (clock (time_calls w1)) (returned r)
                            (match r with Ok _ => "" | Raise e => exc_str e end))
                   report1, w2)) ∧
        storage_untouched w1 w2
  end.
Proof.
  unfold execute_step, mbind, Test_bind, in_world. cbn [fst snd].
  destruct (start_spec (UITestStep_init step_name step_description) w) as (w0 & -> & Hs0 & Ht0).
  cbn [fst snd].
  destruct (step_func (report, w0)) as [[result|e] [report1 w1]]; cbn [fst snd].
  - destruct (complete_spec (Step step_name step_description (clock (time_calls w)) 0 false "")
                true "" w1) as (w2 & Hc & Hs2 & Ht2).
    cbn [UITestStep_init name description end_time success error_message] in *.
    rewrite Hc. exists w2. done.
  - destruct (complete_spec (Step step_name step_description (clock (time_calls w)) 0 false "")
                false (exc_str e) w1) as (w2 & Hc & Hs2 & Ht2).
    cbn [UITestStep_init name description end_time success error_message] in *.
    rewrite Hc. exists w2. done.
Qed.

(** X19.  [execute_step] returns what the step function returns and
    raises what it raises, and on either path adds one step to the end
    of the report the step function left: a step of the given name and
    description that succeeded exactly when the function returned,
    whose error message is the text of the exception, and whose times
    are the clock readings before and after the call. *)
Theorem execute_step_records {A} (step_name step_description : string) (step_func : Test A)
    (report : UITestReport) (w : world) :
  let w0 := (start (UITestStep_init step_name step_description) w).2 in
  match step_func (report, w0) with
  | (r, (report1, w1)) =>
      ∃ step report2 w2,
        execute_step step_name step_description step_func (report, w) = (r, (report2, w2)) ∧
        steps report2 = (steps report1 ++ [step])%list ∧
        name step = step_name ∧ description step = step_description ∧
        success step = returned r ∧
        error_message step = match r with Ok _ => "" | Raise e => exc_str e end ∧
        start_time step = clock (time_calls w) ∧ end_time step = clock (time_calls w1) ∧
        storage_untouched w1 w2
  end.
Proof.
  intros w0. pose proof (execute_step_spec step_name step_description step_func report w) as H.
  cbv zeta in H. fold w0 in H.
  destruct (step_func (report, w0)) as [r [report1 w1]].
  destruct H as (w2 & -> & Hs). eexists _, _, w2. split; [done|]. done.
Qed.

Lemma all_succeeded_snoc (l : list UITestStep) (step : UITestStep) :
  all_succeeded (l ++ [step]) = all_succeeded l && success step.
Proof. unfold all_succeeded. rewrite forallb_app. cbn [forallb]. by rewrite andb_true_r. Qed.

(** X20.  The verdict after a step: [complete_test], called on what
    [execute_step] leaves, returns [True] exactly when the step function
    returned and all the steps that were in the report when it ended
    had succeeded; a step that raised makes the test fail. *)
Theorem execute_step_then_verdict {A} (step_name step_description : string)
    (step_func : Test A) (report : UITestReport) (w : world) :
  let w0 := (start (UITestStep_init step_name step_description) w).2 in
  match step_func (report, w0), execute_step step_name step_description step_func (report, w)
  with
  | (r, (report1, _)), (r', (report2, w2)) =>
      r' = r ∧
      ∃ report3 w3,
        complete_test report2 w2
          = (Ok (all_succeeded (steps report1) && returned r, report3), w3)
  end.
Proof.
  intros w0. pose proof (execute_step_spec step_name step_description step_func report w) as H.
  cbv zeta in H. fold w0 in H.
  destruct (step_func (report, w0)) as [r [report1 w1]].
  destruct H as (w2 & -> & Hs). split; [done|].
  match goal with |- context [complete_test ?rep w2] =>
    destruct (complete_test_spec rep w2) as (w3 & Hc & _) end.
  rewrite Hc. cbn [steps add_step]. rewrite all_succeeded_snoc. cbn [success].
  by eexists _, w3.
Qed.

End ElementCache.

(** * Key derivation *)

Example key_no_params : _generate_cache_key "https://example.com" None = "https://example.com".
Proof. reflexivity. Qed.

Example key_sorted :
  _generate_cache_key "u" (Some [("b", "2"); ("a", "1")]) = "u?a=1&b=2".
Proof. vm_compute. reflexivity. Qed.

Example md5_empty : MD5.hexdigest "" = "d41d8cd98f00b204e9800998ecf8427e".
Proof. vm_compute. reflexivity. Qed.

Example md5_abc : MD5.hexdigest "abc" = "900150983cd24fb0d6963f7d28e17f72".
Proof. vm_compute. reflexivity. Qed.

Example md5_example_com :
  MD5.hexdigest "https://example.com" = "c984d06aafbecf6bc55569f964148ea3".
Proof. vm_compute. reflexivity. Qed.

Example md5_two_blocks :
  MD5.hexdigest "aaaaaaaaaaaaaaaaaaaaaaaaaaaaaaaaaaaaaaaaaaaaaaaaaaaaaaaaaaaaaaaaaaaaaa"
  = "0f5c6c4e740bfcc08c3c26ccb2673d46".
Proof. vm_compute. reflexivity. Qed.

(** *** The order of [sorted] *)

Lemma string_compare_lt_trans (a b c : string) :
  String.compare a b = Lt → String.compare b c = Lt → String.compare a c = Lt.
Proof.
  intros Hab Hbc. apply String_as_OT.cmp_lt.
  eapply String_as_OT.lt_trans; apply String_as_OT.cmp_lt; eassumption.
Qed.

Lemma string_compare_refl (s : string) : String.compare s s = Eq.
Proof. by apply (proj2 (String_as_OT.cmp_eq s s)). Qed.

Lemma tuple_compare_eq (p q : string * string) : tuple_compare p q = Eq → p = q.
Proof.
  destruct p as [k v], q as [k' v']. unfold tuple_compare. simpl.
  destruct (String.compare k k') eqn:Hk; try discriminate.
  intros Hv. apply String.compare_eq_iff in Hk, Hv. congruence.
Qed.

Lemma tuple_compare_refl (p : string * string) : tuple_compare p p = Eq.
Proof.
  destruct p as [k v]. unfold tuple_compare. simpl.
  rewrite string_compare_refl. apply string_compare_refl.
Qed.

Lemma tuple_compare_antisym (p q : string * string) :
  tuple_compare q p = CompOpp (tuple_compare p q).
Proof.
  destruct p as [k v], q as [k' v']. unfold tuple_compare. simpl.
  rewrite (String.compare_antisym k k').
  destruct (String.compare k' k); simpl; try done.
  apply String.compare_antisym.
Qed.

Lemma tuple_compare_lt_trans (p q r : string * string) :
  tuple_compare p q = Lt → tuple_compare q r = Lt → tuple_compare p r = Lt.
Proof.
  destruct p as [k1 v1], q as [k2 v2], r as [k3 v3]. unfold tuple_compare. simpl.
  destruct (String.compare k1 k2) eqn:H12; try discriminate;
    destruct (String.compare k2 k3) eqn:H23; try discriminate; intros Hv12 Hv23.
  - apply String.compare_eq_iff in H12, H23. subst.
    rewrite string_compare_refl. eauto using string_compare_lt_trans.
  - apply String.compare_eq_iff in H12. subst. by rewrite H23.
  - apply String.compare_eq_iff in H23. subst. by rewrite H12.
  - by rewrite (string_compare_lt_trans _ _ _ H12 H23).
Qed.

#[global] Instance tuple_le_total : Total tuple_le.
Proof.
  intros p q. unfold tuple_le. rewrite (tuple_compare_antisym p q).
  destruct (tuple_compare p q); simpl; [left|left|right]; congruence.
Qed.

#[global] Instance tuple_le_antisymm : AntiSymm (=) tuple_le.
Proof.
  intros p q. unfold tuple_le. rewrite (tuple_compare_antisym p q).
  destruct (tuple_compare p q) eqn:Hc; simpl; intros H1 H2; try congruence.
  by apply tuple_compare_eq.
Qed.

#[global] Instance tuple_le_trans : Transitive tuple_le.
Proof.
  intros p q r. unfold tuple_le.
  destruct (tuple_compare p q) eqn:Hpq; [| |congruence]; intros _.
  - apply tuple_compare_eq in Hpq. by subst.
  - destruct (tuple_compare q r) eqn:Hqr; [| |congruence]; intros _.
    + apply tuple_compare_eq in Hqr. subst. by rewrite Hpq.
    + by rewrite (tuple_compare_lt_trans _ _ _ Hpq Hqr).
Qed.

Lemma sorted_Permutation (items : param_dict) : sorted items ≡ₚ items.
Proof. apply merge_sort_Permutation. Qed.

(** Sorting forgets the order the caller wrote the items in. *)
Lemma sorted_order_insensitive (a b : param_dict) : a ≡ₚ b → sorted a = sorted b.
Proof.
  intros Hab. apply (Sorted_unique tuple_le).
  - apply Sorted_merge_sort, _.
  - apply Sorted_merge_sort, _.
  - by rewrite !sorted_Permutation.
Qed.

(** *** The shape of a key *)


Lemma generate_cache_key_unfold (url : string) (params : option param_dict) :
  _generate_cache_key url params =
  if falsy_params params then url else url ++ "?" ++ param_str (items_of params).
Proof. by destruct params as [[|kv items]|]. Qed.

Lemma falsy_params_items (params : option param_dict) :
  falsy_params params = true ↔ items_of params = [].
Proof. destruct params as [[|kv items]|]; simpl; naive_solver. Qed.

(** *** Reading a key back *)

Lemma has_char_app (c : ascii) (s t : string) :
  has_char c (s ++ t) = has_char c s || has_char c t.
Proof. induction s as [|d s IH]; simpl; [done|]. by rewrite IH, orb_assoc. Qed.

Lemma has_char_head (c : ascii) (s : string) : has_char c (String c s) = true.
Proof. simpl. by rewrite Ascii.eqb_refl. Qed.

(** A string is cut in one way only at the first occurrence of [c]. *)
Lemma cut_unique (c : ascii) (a a' x y : string) :
  has_char c a = false → has_char c a' = false →
  a ++ String c x = a' ++ String c y → a = a' ∧ x = y.
Proof.
  revert a'. induction a as [|d a IH]; intros [|d' a']; simpl.
  - intros _ _ [= ->]. done.
  - intros _ Hc [= <- _]. by rewrite Ascii.eqb_refl in Hc.
  - intros Hc _ [= -> _]. by rewrite Ascii.eqb_refl in Hc.
  - intros [_ Ha]%orb_false_elim [_ Ha']%orb_false_elim [= -> Heq].
    destruct (IH a' Ha Ha' Heq) as [-> ->]. done.
Qed.

Lemma string_app_inv_head (s x y : string) : s ++ x = s ++ y → x = y.
Proof. induction s as [|c s IH]; simpl; [done|]. intros [= H]. auto. Qed.

Lemma string_app_length (s t : string) :
  String.length (s ++ t) = (String.length s + String.length t)%nat.
Proof. induction s as [|c s IH]; simpl; [done|]. by rewrite IH. Qed.

Lemma string_app_neq (s t : string) : s ≠ s ++ String "?" t.
Proof.
  intros H. apply (f_equal String.length) in H.
  rewrite string_app_length in H. simpl in H. lia.
Qed.

Lemma render_param_plain (kv : string * string) :
  plain_param kv → has_char "&" (render_param kv) = false.
Proof.
  intros (_ & Hk & Hv). unfold render_param.
  rewrite has_char_app, Hk. simpl. exact Hv.
Qed.

Lemma render_param_nonempty (kv : string * string) : render_param kv ≠ "".
Proof. unfold render_param. destruct kv as [[|c k] v]; simpl; discriminate. Qed.

Lemma render_param_inj (kv kv' : string * string) :
  plain_param kv → plain_param kv' → render_param kv = render_param kv' → kv = kv'.
Proof.
  destruct kv as [k v], kv' as [k' v']. unfold render_param, plain_param. simpl.
  intros (Hk & _) (Hk' & _) Heq.
  destruct (cut_unique "=" k k' v v' Hk Hk' Heq) as [-> ->]. done.
Qed.

Lemma join_cons_cons (x y : string) (l : list string) :
  String.concat "&" (x :: y :: l) = x ++ String "&" (String.concat "&" (y :: l)).
Proof. done. Qed.

Lemma join_nonempty (x : string) (l : list string) :
  x ≠ "" → String.concat "&" (x :: l) ≠ "".
Proof.
  intros Hx. destruct l as [|y l]; [done|]. rewrite join_cons_cons.
  destruct x; [done|]. simpl. discriminate.
Qed.

(** ["&".join] can be undone on pieces that are non-empty and free of
    the ampersand. *)
Lemma join_inj (l1 l2 : list string) :
  Forall (λ s, s ≠ "" ∧ has_char "&" s = false) l1 →
  Forall (λ s, s ≠ "" ∧ has_char "&" s = false) l2 →
  String.concat "&" l1 = String.concat "&" l2 → l1 = l2.
Proof.
  intros H1. revert l2. induction H1 as [|x l1 [Hx Hxc] H1 IH]; intros l2 H2 Heq.
  - destruct H2 as [|y l2 [Hy _] _]; [done|].
    symmetry in Heq. by apply join_nonempty in Heq.
  - destruct H2 as [|y l2 [Hy Hyc] H2]; [by apply join_nonempty in Heq|].
    destruct l1 as [|x' l1], l2 as [|y' l2].
    + simpl in Heq. by subst.
    + rewrite join_cons_cons in Heq. change (String.concat "&" [x]) with x in Heq.
      subst x. rewrite has_char_app, has_char_head, orb_true_r in Hxc. done.
    + rewrite join_cons_cons in Heq. change (String.concat "&" [y]) with y in Heq.
      subst y. rewrite has_char_app, has_char_head, orb_true_r in Hyc. done.
    + rewrite !join_cons_cons in Heq.
      destruct (cut_unique "&" x y _ _ Hxc Hyc Heq) as [-> Hrest].
      f_equal. by apply IH.
Qed.

Lemma param_str_inj (a b : param_dict) :
  Forall plain_param a → Forall plain_param b → param_str a = param_str b → a ≡ₚ b.
Proof.
  intros Ha Hb Heq. unfold param_str in Heq.
  assert (Hsa : Forall plain_param (sorted a)) by (by rewrite sorted_Permutation).
  assert (Hsb : Forall plain_param (sorted b)) by (by rewrite sorted_Permutation).
  apply join_inj in Heq.
  - rewrite <- (sorted_Permutation a), <- (sorted_Permutation b).
    revert Hsa Hsb Heq. generalize (sorted a) (sorted b). clear.
    intros l1 l2 H1. revert l2.
    induction H1 as [|x l1 Hx H1 IH]; intros l2 H2 Heq; destruct H2 as [|y l2 Hy H2];
      simplify_eq/=; [done|].
    rewrite (render_param_inj x y) by done. f_equiv. by apply IH.
  - apply Forall_fmap. eapply Forall_impl; [exact Hsa|].
    intros kv Hkv. simpl. split; [apply render_param_nonempty|by apply render_param_plain].
  - apply Forall_fmap. eapply Forall_impl; [exact Hsb|].
    intros kv Hkv. simpl. split; [apply render_param_nonempty|by apply render_param_plain].
Qed.

Lemma same_params_Permutation (a b : option param_dict) :
  is_dict (items_of a) → is_dict (items_of b) →
  same_params a b ↔ items_of a ≡ₚ items_of b.
Proof.
  intros Ha Hb. split.
  - intros Hab. apply NoDup_Permutation; [by eapply NoDup_fmap_1..|done].
  - intros Hab kv. by rewrite Hab.
Qed.

Lemma falsy_params_Permutation (a b : option param_dict) :
  items_of a ≡ₚ items_of b → falsy_params a = falsy_params b.
Proof.
  intros Hab. destruct (falsy_params a) eqn:Ha.
  - apply falsy_params_items in Ha. rewrite Ha in Hab.
    symmetry. apply falsy_params_items. symmetry. by apply Permutation_nil_l.
  - destruct (falsy_params b) eqn:Hb; [|done].
    apply falsy_params_items in Hb. rewrite Hb in Hab.
    apply Permutation_nil_r in Hab. apply falsy_params_items in Hab. congruence.
Qed.

Lemma generate_cache_key_order_insensitive (url : string) (a b : option param_dict) :
  items_of a ≡ₚ items_of b → _generate_cache_key url a = _generate_cache_key url b.
Proof.
  intros Hab. rewrite !generate_cache_key_unfold, (falsy_params_Permutation a b Hab).
  unfold param_str. by rewrite (sorted_order_insensitive _ _ Hab).
Qed.

Lemma generate_cache_key_inj (url : string) (a b : option param_dict) :
  plain_params a → plain_params b →
  _generate_cache_key url a = _generate_cache_key url b → items_of a ≡ₚ items_of b.
Proof.
  intros Ha Hb. rewrite !generate_cache_key_unfold.
  destruct (falsy_params a) eqn:Fa, (falsy_params b) eqn:Fb.
  - apply falsy_params_items in Fa, Fb. by rewrite Fa, Fb.
  - intros H. by apply string_app_neq in H.
  - intros H. symmetry in H. by apply string_app_neq in H.
  - intros H. apply string_app_inv_head in H. injection H as H.
    by apply param_str_inj.
Qed.

(** C4, as amended.  For one base location and two parameter dicts:
    the same set of name/value pairs gives the same cache key (and so
    the same durable file name), in whatever order the caller wrote
    them; and different sets give different keys provided no name
    contains [=] or [&] and no value contains [&]. *)
Theorem generate_cache_key_params
    (md5_hexdigest : string → string) (url : string) (a b : option param_dict) :
  is_dict (items_of a) → is_dict (items_of b) →
  (same_params a b →
     _generate_cache_key url a = _generate_cache_key url b ∧
     _get_cache_file md5_hexdigest (_generate_cache_key url a)
       = _get_cache_file md5_hexdigest (_generate_cache_key url b)) ∧
  (plain_params a → plain_params b → ¬ same_params a b →
     _generate_cache_key url a ≠ _generate_cache_key url b).
Proof.
  intros Da Db. split.
  - intros Hab%same_params_Permutation; [|done..].
    by rewrite (generate_cache_key_order_insensitive url a b Hab).
  - intros Pa Pb Hne Heq. apply Hne, same_params_Permutation; [done..|].
    by eapply generate_cache_key_inj.
Qed.

Lemma generate_cache_key_params_witness :
  (_generate_cache_key "https://example.com" (Some [("a", "1"); ("b", "2")])
     = _generate_cache_key "https://example.com" (Some [("b", "2"); ("a", "1")]) ∧
   _get_cache_file MD5.hexdigest
       (_generate_cache_key "https://example.com" (Some [("a", "1"); ("b", "2")]))
     = _get_cache_file MD5.hexdigest
         (_generate_cache_key "https://example.com" (Some [("b", "2"); ("a", "1")]))) ∧
  _generate_cache_key "https://example.com" (Some [("a", "1")])
    ≠ _generate_cache_key "https://example.com" (Some [("a", "2")]).
Proof.
  split.
  - apply (generate_cache_key_params MD5.hexdigest "https://example.com"
             (Some [("a", "1"); ("b", "2")]) (Some [("b", "2"); ("a", "1")])).
    + unfold is_dict. simpl. apply (bool_decide_unpack _). vm_compute. reflexivity.
    + unfold is_dict. simpl. apply (bool_decide_unpack _). vm_compute. reflexivity.
    + intros kv. simpl. rewrite !elem_of_cons. tauto.
  - apply (generate_cache_key_params MD5.hexdigest "https://example.com"
             (Some [("a", "1")]) (Some [("a", "2")])).
    + unfold is_dict. simpl. apply (bool_decide_unpack _). vm_compute. reflexivity.
    + unfold is_dict. simpl. apply (bool_decide_unpack _). vm_compute. reflexivity.
    + unfold plain_params. simpl. apply (bool_decide_unpack _). vm_compute. reflexivity.
    + unfold plain_params. simpl. apply (bool_decide_unpack _). vm_compute. reflexivity.
    + intros H. specialize (H ("a", "1")). simpl in H. rewrite !list_elem_of_singleton in H.
      destruct H as [H _]. specialize (H eq_refl). discriminate.
Defined.

(** C4, as stated, fails: a value that contains the separators renders
    as two parameters do. *)
Lemma generate_cache_key_collision :
  is_dict [("a", "1&b=2")] ∧ is_dict [("a", "1"); ("b", "2")] ∧
  ¬ same_params (Some [("a", "1&b=2")]) (Some [("a", "1"); ("b", "2")]) ∧
  _generate_cache_key "https://example.com" (Some [("a", "1&b=2")])
    = _generate_cache_key "https://example.com" (Some [("a", "1"); ("b", "2")]).
Proof.
  split; [|split; [|split]].
  - unfold is_dict. apply (bool_decide_unpack _). vm_compute. reflexivity.
  - unfold is_dict. apply (bool_decide_unpack _). vm_compute. reflexivity.
  - intros H. specialize (H ("b", "2")). simpl in H.
    rewrite list_elem_of_singleton, !elem_of_cons in H.
    destruct H as [_ H]. discriminate H. right. by left.
  - vm_compute. reflexivity.
Qed.

(** * The accessor of the UI tester *)

Import UiTester.


(** C9.  [get_cached_elements] never raises.  Without a
    [cache_manager] it goes through the context's own
    [get_elements_with_cache] and returns what that returns; with
    neither, it returns an empty dict and logs a warning; and when the
    accessor it invokes raises (or the manager has no such method), it
    returns an empty dict and logs an error. *)
Theorem get_cached_elements_fails_soft
    (ctx : context) (url : string) (force_refresh : bool) (w : world) :
  (∃ v w', get_cached_elements ctx url force_refresh w = (Ok v, w')) ∧
  (∀ get v w',
     cache_manager ctx = None → get_elements_with_cache ctx = Some get →
     get url force_refresh w = (Ok v, w') →
     get_cached_elements ctx url force_refresh w = (Ok v, w')) ∧
  (cache_manager ctx = None → get_elements_with_cache ctx = None →
     get_cached_elements ctx url force_refresh w
     = empty_with WARNING "no cache method found, returning an empty cache" w) ∧
  (∀ get e w',
     cache_manager ctx = None → get_elements_with_cache ctx = Some get →
     get url force_refresh w = (Raise e, w') →
     get_cached_elements ctx url force_refresh w
     = empty_with ERROR ("getting the cached elements failed: " ++ exc_str e) w') ∧
  (∀ mgr get e w',
     cache_manager ctx = Some mgr → mgr_get_elements_with_cache mgr = Some get →
     get url force_refresh w = (Raise e, w') →
     get_cached_elements ctx url force_refresh w
     = empty_with ERROR ("getting the cached elements failed: " ++ exc_str e) w') ∧
  (∀ mgr,
     cache_manager ctx = Some mgr → mgr_get_elements_with_cache mgr = None →
     get_cached_elements ctx url force_refresh w
     = empty_with ERROR ("getting the cached elements failed: "
                         ++ exc_str (AttributeError "get_elements_with_cache")) w).
Proof.
  unfold get_cached_elements, try_except, empty_with.
  split; [|repeat split].
  - destruct (cache_manager ctx) as [[[get|]]|]; simpl.
    + destruct (get url force_refresh w) as [[v|e] w']; by eexists _, _.
    + by eexists _, _.
    + destruct (get_elements_with_cache ctx) as [get|]; [|by eexists _, _].
      destruct (get url force_refresh w) as [[v|e] w']; by eexists _, _.
  - intros get v w' Hm Ha Hr. by rewrite Hm, Ha, Hr.
  - intros Hm Ha. by rewrite Hm, Ha.
  - intros get e w' Hm Ha Hr. by rewrite Hm, Ha, Hr.
  - intros mgr get e w' Hm Ha Hr. by rewrite Hm, Ha, Hr.
  - intros mgr Hm Ha. by rewrite Hm, Ha.
Qed.


Lemma get_cached_elements_fails_soft_witness :
  get_cached_elements (Context None (Some (constant_accessor (PyDict {["0" := PyStr "input"]}))))
      "https://example.com" false (boot ∅)
    = (Ok (PyDict {["0" := PyStr "input"]}), boot ∅) ∧
  get_cached_elements (Context None None) "https://example.com" false (boot ∅)
    = empty_with WARNING "no cache method found, returning an empty cache" (boot ∅) ∧
  get_cached_elements (Context None (Some failing_accessor)) "https://example.com" true (boot ∅)
    = empty_with ERROR "getting the cached elements failed: page is closed" (boot ∅) ∧
  get_cached_elements (Context (Some (Manager (Some failing_accessor))) None)
      "https://example.com" true (boot ∅)
    = empty_with ERROR "getting the cached elements failed: page is closed" (boot ∅) ∧
  get_cached_elements (Context (Some (Manager None)) (Some failing_accessor))
      "https://example.com" true (boot ∅)
    = empty_with ERROR "getting the cached elements failed: get_elements_with_cache" (boot ∅).
Proof.
  split; [|split; [|split; [|split]]].
  - destruct (get_cached_elements_fails_soft
                (Context None (Some (constant_accessor (PyDict {["0" := PyStr "input"]}))))
                "https://example.com" false (boot ∅)) as (_ & H & _).
    eapply H; reflexivity.
  - destruct (get_cached_elements_fails_soft (Context None None)
                "https://example.com" false (boot ∅)) as (_ & _ & H & _).
    apply H; reflexivity.
  - destruct (get_cached_elements_fails_soft (Context None (Some failing_accessor))
                "https://example.com" true (boot ∅)) as (_ & _ & _ & H & _).
    eapply (H failing_accessor (RuntimeError "page is closed")); reflexivity.
  - destruct (get_cached_elements_fails_soft
                (Context (Some (Manager (Some failing_accessor))) None)
                "https://example.com" true (boot ∅)) as (_ & _ & _ & _ & H & _).
    eapply (H _ failing_accessor (RuntimeError "page is closed")); reflexivity.
  - destruct (get_cached_elements_fails_soft
                (Context (Some (Manager None)) (Some failing_accessor))
                "https://example.com" true (boot ∅)) as (_ & _ & _ & _ & _ & H).
    eapply H; reflexivity.
Defined.

(** * The store, on concrete runs *)


(** The second scenario: a second write of three elements. *)
Example second_write_has_version_2 :
  let w := run MD5.hexdigest no_faults wall_clock
             [Store "https://example.com" one_element None;
              Store "https://example.com" three_elements None] (new_cache no_faults ∅) in
  (get_elements MD5.hexdigest no_faults "https://example.com" None w).1
    = Ok (PyDict three_elements) ∧
  (get_cache_info "https://example.com" None w).1
    = Ok {| m_url := Some "https://example.com";
            m_timestamp := Some 1741772381;
            m_element_count := Some 3;
            m_version := Some 2 |}.
Proof. vm_compute. split; reflexivity. Qed.




Lemma get_elements_never_raises_witness :
  let cache_file := "c984d06aafbecf6bc55569f964148ea3.json" in
  get_elements MD5.hexdigest no_faults "https://example.com" None (boot ∅)
    = (Ok (PyDict ∅), boot ∅) ∧
  (get_elements MD5.hexdigest no_faults "https://example.com" None
     (boot {[cache_file := Garbage]})).1 = Ok (PyDict ∅) ∧
  (get_elements MD5.hexdigest storage_down "https://example.com" None
     (boot {[cache_file := JsonDoc (PyDict one_element)]})).1 = Ok (PyDict ∅) ∧
  (get_elements MD5.hexdigest no_faults "https://example.com" None
     (boot {[cache_file := JsonDoc (PyInt 42)]})).1 = Ok (PyDict ∅).
Proof.
  intros cache_file. split; [|split; [|split]].
  - destruct (get_elements_never_raises MD5.hexdigest no_faults
                "https://example.com" None (boot ∅)) as (_ & H & _).
    apply H; vm_compute; reflexivity.
  - destruct (get_elements_never_raises MD5.hexdigest no_faults
                "https://example.com" None (boot {[cache_file := Garbage]})) as (_ & _ & H).
    apply H; [vm_compute; reflexivity|]. left. vm_compute. reflexivity.
  - destruct (get_elements_never_raises MD5.hexdigest storage_down "https://example.com" None
                (boot {[cache_file := JsonDoc (PyDict one_element)]})) as (_ & _ & H).
    apply H; [vm_compute; reflexivity|]. right. left. reflexivity.
  - destruct (get_elements_never_raises MD5.hexdigest no_faults "https://example.com" None
                (boot {[cache_file := JsonDoc (PyInt 42)]})) as (_ & _ & H).
    apply H; [vm_compute; reflexivity|]. right. right. right.
    exists (PyInt 42), (TypeError "object has no len()"). split; vm_compute; reflexivity.
Defined.

Lemma store_elements_keeps_memory_witness :
  ∃ w',
    store_elements MD5.hexdigest storage_down wall_clock
      "https://example.com" one_element None (boot ∅) = (Ok tt, w') ∧
    cache w' !! "https://example.com" = Some (PyDict one_element) ∧
    disk w' !! "c984d06aafbecf6bc55569f964148ea3.json" = None ∧
    last (log w') = Some (ERROR, "saving the cache file failed: storage call failed").
Proof.
  destruct (store_elements_keeps_memory MD5.hexdigest storage_down wall_clock
              "https://example.com" one_element None (boot ∅)) as (w' & Hrun & Hc & _ & H).
  exists w'. split; [exact Hrun|]. split; [exact Hc|].
  destruct H as [Hd Hl].
  - intros n. reflexivity.
  - vm_compute. discriminate.
  - split; [|exact Hl]. etransitivity; [|exact Hd]. vm_compute. reflexivity.
Defined.





(** C10, as stated, fails: the eviction of the location [""] is a
    clear-all, which removes the entry and the metadata record of every
    other key. *)
Lemma empty_location_evicts_all :
  let w := run MD5.hexdigest no_faults wall_clock
             [Store "" one_element None;
              Store "https://example.com" three_elements None] (new_cache no_faults ∅) in
  let w' := (clear_cache MD5.hexdigest no_faults (Some "") None w).2 in
  _generate_cache_key "" None ≠ _generate_cache_key "https://example.com" None ∧
  cache w !! "https://example.com" = Some (PyDict three_elements) ∧
  cache w' !! "https://example.com" = None ∧
  is_Some (metadata w !! "https://example.com") ∧
  metadata w' !! "https://example.com" = None.
Proof.
  split; [discriminate|]. split; [vm_compute; reflexivity|].
  split; [vm_compute; reflexivity|]. split; [|vm_compute; reflexivity].
  eexists. vm_compute. reflexivity.
Qed.

Lemma other_keys_untouched_witness :
  let w := run MD5.hexdigest no_faults wall_clock
             [Store "https://example.com" one_element None;
              Store "https://example.org" three_elements None] (new_cache no_faults ∅) in
  let stored := (store_elements MD5.hexdigest no_faults wall_clock
                   "https://example.com" three_elements None w).2 in
  let cleared := (clear_cache MD5.hexdigest no_faults (Some "https://example.com") None w).2 in
  (cache stored !! "https://example.org" = cache w !! "https://example.org" ∧
   metadata stored !! "https://example.org" = metadata w !! "https://example.org") ∧
  (cache cleared !! "https://example.org" = cache w !! "https://example.org" ∧
   metadata cleared !! "https://example.org" = metadata w !! "https://example.org").
Proof.
  intros w stored cleared.
  destruct (other_keys_untouched MD5.hexdigest no_faults wall_clock
              "https://example.com" "https://example.org" None None three_elements w)
    as [Hstore Hclear]; [discriminate|].
  split.
  - destruct Hstore as (Hc & Hm & _). split; [exact Hc|exact Hm].
  - destruct Hclear as (Hc & Hm & _); [discriminate|]. split; [exact Hc|exact Hm].
Defined.

(** * Further properties, on concrete runs *)

Lemma store_elements_persists_witness :
  let w' := (store_elements MD5.hexdigest no_faults wall_clock
               "https://example.com" one_element None (new_cache no_faults ∅)).2 in
  disk w' !! "c984d06aafbecf6bc55569f964148ea3.json" = Some (JsonDoc (PyDict one_element)) ∧
  disk w' !! metadata_file = Some (JsonDoc (metadata_to_py (metadata w'))).
Proof.
  intros w'.
  apply (store_elements_persists MD5.hexdigest no_faults wall_clock
           "https://example.com" one_element None (new_cache no_faults ∅)).
  - intros n c. reflexivity.
  - vm_compute. discriminate.
Defined.

Lemma init_raises_only_with_makedirs_witness :
  (∃ w', __init__ storage_down (boot ∅) = (Raise (OSError "storage call failed"), w') ∧
         metadata w' = ∅ ∧ log w' = []) ∧
  (∃ w', __init__ no_faults (boot {[metadata_file := Garbage]}) = (Ok tt, w') ∧
         metadata w' = ∅ ∧
         ∃ e, last (log w') = Some (ERROR, "loading cache metadata failed: " ++ exc_str e)) ∧
  (∃ w', __init__ no_faults (boot ∅) = (Ok tt, w') ∧ metadata w' = ∅ ∧ log w' = []).
Proof.
  split; [|split].
  - destruct (init_raises_only_with_makedirs storage_down (boot ∅))
      as (r & w' & Hrun & _ & _ & _ & Hinit).
    change (storage_down (io_calls (boot ∅)) MakeDirs) with true in Hinit.
    destruct Hinit as (-> & Hm & Hl). exists w'. split; [exact Hrun|]. split; [exact Hm|exact Hl].
  - destruct (init_raises_only_with_makedirs no_faults (boot {[metadata_file := Garbage]}))
      as (r & w' & Hrun & _ & _ & _ & Hinit).
    change (no_faults (io_calls (boot {[metadata_file := Garbage]})) MakeDirs)
      with false in Hinit.
    destruct Hinit as (-> & Hbad & _).
    exists w'. split; [exact Hrun|]. apply Hbad.
    + eexists. vm_compute. reflexivity.
    + left. vm_compute. reflexivity.
  - destruct (init_raises_only_with_makedirs no_faults (boot ∅))
      as (r & w' & Hrun & _ & _ & Hnone & Hinit).
    change (no_faults (io_calls (boot ∅)) MakeDirs) with false in Hinit.
    destruct Hinit as (-> & _).
    exists w'. split; [exact Hrun|]. apply Hnone. vm_compute. reflexivity.
Defined.

Lemma restart_reads_back_witness :
  let w1 := (store_elements MD5.hexdigest no_faults wall_clock
               "https://example.com" one_element None (new_cache no_faults ∅)).2 in
  let w2 := (__init__ no_faults w1).2 in
  cache w2 = ∅ ∧ metadata w2 = metadata w1 ∧
  (get_elements MD5.hexdigest no_faults "https://example.com" None w2).1
    = Ok (PyDict one_element) ∧
  cache (get_elements MD5.hexdigest no_faults "https://example.com" None w2).2
    !! _generate_cache_key "https://example.com" None = Some (PyDict one_element) ∧
  (get_cache_info "https://example.com" None w2).1
    = (get_cache_info "https://example.com" None w1).1.
Proof.
  intros w1 w2.
  apply (restart_reads_back MD5.hexdigest no_faults wall_clock
           "https://example.com" one_element None (new_cache no_faults ∅)).
  - intros n c. reflexivity.
  - vm_compute. discriminate.
Defined.

Lemma get_elements_loads_once_witness :
  let w := boot {["c984d06aafbecf6bc55569f964148ea3.json" := JsonDoc (PyDict one_element)]} in
  let first := get_elements MD5.hexdigest no_faults "https://example.com" None w in
  let second := get_elements MD5.hexdigest no_faults "https://example.com" None
                  (set_disk (λ _, ∅) first.2) in
  first.1 = Ok (PyDict one_element) ∧ second.1 = Ok (PyDict one_element) ∧
  io_calls second.2 = io_calls first.2.
Proof.
  intros w first second.
  apply (get_elements_loads_once MD5.hexdigest no_faults
           "https://example.com" None one_element w ∅).
  - vm_compute. reflexivity.
  - vm_compute. reflexivity.
  - reflexivity.
  - reflexivity.
Defined.

Lemma get_elements_keeps_document_without_length_witness :
  let w := boot {["c984d06aafbecf6bc55569f964148ea3.json" := JsonDoc (PyInt 42)]} in
  let first := get_elements MD5.hexdigest no_faults "https://example.com" None w in
  first.1 = Ok (PyDict ∅) ∧
  last (log first.2)
    = Some (ERROR, "loading the cache file failed: "
                   ++ exc_str (TypeError "object has no len()")) ∧
  (get_elements MD5.hexdigest no_faults "https://example.com" None first.2).1 = Ok (PyInt 42).
Proof.
  intros w first.
  apply (get_elements_keeps_document_without_length MD5.hexdigest no_faults
           "https://example.com" None (PyInt 42) (TypeError "object has no len()") w).
  - vm_compute. reflexivity.
  - vm_compute. reflexivity.
  - reflexivity.
  - reflexivity.
  - reflexivity.
Defined.

Lemma queries_change_nothing_durable_witness :
  let w := run MD5.hexdigest no_faults wall_clock
             [Store "https://example.com" one_element None] (new_cache no_faults ∅) in
  let ops := [Read "https://example.com" None; Read "https://example.org" None;
              Info "https://example.com" None; ListUrls] in
  metadata (run MD5.hexdigest no_faults wall_clock ops w) = metadata w ∧
  disk (run MD5.hexdigest no_faults wall_clock ops w) = disk w.
Proof.
  intros w ops.
  apply (queries_change_nothing_durable MD5.hexdigest no_faults wall_clock ops w).
  reflexivity.
Defined.

Lemma other_files_untouched_witness :
  let w := boot {["notes.txt" := Garbage]} in
  let ops := [Store "https://example.com" one_element None; Clear None None] in
  disk (run MD5.hexdigest deletions_fail wall_clock ops w) !! "notes.txt"
    = disk w !! "notes.txt".
Proof.
  intros w ops.
  apply (other_files_untouched MD5.hexdigest deletions_fail wall_clock ops w "notes.txt").
  reflexivity.
Defined.

Lemma clear_cache_unknown_key_witness :
  clear_cache MD5.hexdigest no_faults (Some "https://example.com") None (boot ∅)
    = (Ok tt, boot ∅) ∧
  let w := (store_elements MD5.hexdigest no_faults wall_clock
              "https://example.com" one_element None (new_cache no_faults ∅)).2 in
  let w1 := (clear_cache MD5.hexdigest no_faults (Some "https://example.com") None w).2 in
  clear_cache MD5.hexdigest no_faults (Some "https://example.com") None w1 = (Ok tt, w1).
Proof.
  split.
  - destruct (clear_cache_unknown_key MD5.hexdigest no_faults
                "https://example.com" None (boot ∅)) as [H _]; [discriminate|].
    apply H; vm_compute; reflexivity.
  - intros w.
    destruct (clear_cache_unknown_key MD5.hexdigest no_faults
                "https://example.com" None w) as [_ H]; [discriminate|].
    apply H. intros n. reflexivity.
Defined.


Lemma query_string_aliases_params_witness :
  _generate_cache_key "https://example.com?page=2" None
    = _generate_cache_key "https://example.com" (Some [("page", "2")]) ∧
  (get_elements MD5.hexdigest no_faults "https://example.com?page=2" None
     (store_elements MD5.hexdigest no_faults wall_clock "https://example.com" one_element
        (Some [("page", "2")]) (new_cache no_faults ∅)).2).1
    = Ok (PyDict one_element).
Proof.
  apply (query_string_aliases_params MD5.hexdigest no_faults wall_clock
           "https://example.com" [("page", "2")] one_element (new_cache no_faults ∅)).
  discriminate.
Defined.

Lemma version_counts_writes_witness :
  let ops := [Store "https://example.com" one_element None;
              Store "https://example.com" three_elements None;
              Clear (Some "https://example.com") None;
              Store "https://example.com" one_element None;
              Read "https://example.com" None] in
  let w := run MD5.hexdigest deletions_fail wall_clock ops (new_cache deletions_fail ∅) in
  (∃ m, metadata w !! "https://example.com" = Some m ∧ m_version m = Some 1) ∧
  metadata w !! "https://example.org" = None.
Proof.
  intros ops w. split.
  - destruct (version_counts_writes MD5.hexdigest deletions_fail wall_clock ops
                "https://example.com") as [_ H].
    apply H. vm_compute. discriminate.
  - destruct (version_counts_writes MD5.hexdigest deletions_fail wall_clock ops
                "https://example.org") as [H _].
    apply H. vm_compute. reflexivity.
Defined.

(** * Finding elements on the page *)

Lemma startswith_spec (s prefix : string) :
  startswith s prefix = true ↔ ∃ after, s = prefix ++ after.
Proof.
  revert s. induction prefix as [|c prefix IH]; intros s; simpl.
  - split; [intros _; by exists s|by destruct s].
  - destruct s as [|d s]; simpl.
    + split; [done|]. by intros [after ?].
    + rewrite andb_true_iff, IH, Ascii.eqb_eq. split.
      * intros [-> [after ->]]. by exists after.
      * intros [after [= -> ->]]. split; [done|]. by exists after.
Qed.

Lemma contains_spec (needle s : string) : contains needle s = true ↔ substring needle s.
Proof.
  unfold substring. split.
  - induction s as [|d s IH]; cbn [contains]; rewrite orb_true_iff.
    + intros [H|?]; [|done]. apply startswith_spec in H as [after H]. by exists "", after.
    + intros [H|H].
      * apply startswith_spec in H as [after H]. by exists "", after.
      * destruct (IH H) as (before & after & ->). by exists (String d before), after.
  - intros (before & after & ->). induction before as [|d before IH].
    + assert (startswith (needle ++ after) needle = true) as Hs
        by (apply startswith_spec; by exists after).
      change ("" ++ needle ++ after) with (needle ++ after).
      destruct (needle ++ after); cbn [contains]; by rewrite Hs.
    + change (String d before ++ needle ++ after) with (String d (before ++ needle ++ after)).
      cbn [contains]. rewrite IH. apply orb_true_r.
Qed.

Lemma substring_refl (s : string) : substring s s.
Proof.
  exists "", "". change (s = s ++ "").
  induction s as [|c s IH]; [done|]. change (String c s = String c (s ++ "")). by f_equal.
Qed.

Lemma substring_empty (s : string) : substring "" s.
Proof. by exists "", s. Qed.

Lemma first_match_skip (P : element → Prop) (index : Z) (e : element)
    (rest : selector_map) (r : option Z) :
  ¬ P e → first_match P rest r → first_match P ((index, e) :: rest) r.
Proof.
  intros Hne. destruct r as [i|]; simpl.
  - intros (before & e' & after & -> & He' & Hbefore).
    exists ((index, e) :: before), e', after. split; [done|]. split; [done|].
    by constructor.
  - intros Hrest. by constructor.
Qed.

Lemma first_match_here (P : element → Prop) (index : Z) (e : element) (rest : selector_map) :
  P e → first_match P ((index, e) :: rest) (Some index).
Proof. intros He. exists [], e, rest. split; [done|]. split; [done|]. constructor. Qed.

Lemma first_match_None (P : element → Prop) (items : selector_map) (index : Z) (e : element) :
  first_match P items None → (index, e) ∈ items → ¬ P e.
Proof. simpl. rewrite Forall_forall. intros H Hin. by apply (H (index, e)). Qed.

Lemma first_match_elem_of (P : element → Prop) (items : selector_map) (index : Z) :
  first_match P items (Some index) → ∃ e, (index, e) ∈ items ∧ P e.
Proof.
  intros (before & e & after & -> & He & _). exists e. split; [|done].
  apply elem_of_app. right. by left.
Qed.

Section FinderFacts.

Variable lower : string → string.

Lemma tag_excluded_spec (tag_names : option (list string)) (e : element) :
  tag_excluded lower tag_names e = false ↔ tag_allowed lower tag_names e.
Proof.
  unfold tag_excluded, tag_allowed. destruct tag_names as [[|t tags]|]; [done| |done].
  rewrite negb_false_iff, bool_decide_eq_true, list_elem_of_fmap. split.
  - intros (t' & Heq & Hin). by exists t'.
  - intros (t' & Hin & Heq). by exists t'.
Qed.

Lemma find_text_in_spec (text_content : string) (tag_names : option (list string))
    (exact_match interactive_only : bool) (items : selector_map) :
  first_match (text_match lower text_content tag_names exact_match interactive_only) items
    (find_text_in lower text_content tag_names exact_match interactive_only items).
Proof.
  induction items as [|[index e] rest IH]; [by constructor|].
  cbn [find_text_in].
  destruct (interactive_only && negb (default false (is_interactive e))) eqn:Hi.
  { apply first_match_skip; [|done]. intros (Hint & _).
    apply andb_true_iff in Hi as [-> Hi]. rewrite Hint in Hi by done. done. }
  destruct (is_element_hidden lower e) eqn:Hh.
  { apply first_match_skip; [|done]. intros (_ & Hvis & _). congruence. }
  destruct (tag_excluded lower tag_names e) eqn:Ht.
  { apply first_match_skip; [|done]. intros (_ & _ & Htag & _).
    apply tag_excluded_spec in Htag. congruence. }
  assert (Hcommon : (interactive_only = true → is_interactive e = Some true) ∧
                    is_element_hidden lower e = false ∧ tag_allowed lower tag_names e).
  { split; [|split; [done|by apply tag_excluded_spec]].
    intros ->. simpl in Hi. apply negb_false_iff in Hi.
    by destruct (is_interactive e) as [[]|]. }
  destruct Hcommon as (H1 & H2 & H3).
  destruct exact_match.
  - destruct (String.eqb (element_text e) text_content) eqn:Heq.
    + apply first_match_here. apply String.eqb_eq in Heq. done.
    + apply first_match_skip; [|done]. intros (_ & _ & _ & Hx).
      apply String.eqb_neq in Heq. done.
  - destruct (contains text_content (element_text e)) eqn:Hc.
    + apply first_match_here. apply contains_spec in Hc. done.
    + apply first_match_skip; [|done]. intros (_ & _ & _ & Hx).
      apply contains_spec in Hx. congruence.
Qed.

(** X13.  [find_element_by_text] raises what [context.get_state]
    raises and otherwise returns the index of the first entry of the
    selector map, in its order, that is interactive (when only such are
    asked for), not hidden, of one of the tags (when tags are given),
    and whose text equals the text sought or, without [exact_match],
    contains it; it returns [None] exactly when no entry is such. *)
Theorem find_element_by_text_finds_first
    (get_state : Py selector_map) (text_content : string) (tag_names : option (list string))
    (exact_match interactive_only : bool) (w : world) :
  match get_state w with
  | (Ok items, w') =>
      ∃ r, find_element_by_text lower get_state text_content tag_names
             exact_match interactive_only w = (Ok r, w') ∧
           first_match (text_match lower text_content tag_names exact_match interactive_only)
             items r
  | (Raise e, w') =>
      find_element_by_text lower get_state text_content tag_names
        exact_match interactive_only w = (Raise e, w')
  end.
Proof.
  unfold find_element_by_text, mbind, Py_bind, mret, Py_ret.
  destruct (get_state w) as [[items|e] w']; [|done].
  eexists. split; [done|]. apply find_text_in_spec.
Qed.

Lemma text_match_relax (text_content : string) (tag_names : option (list string))
    (exact_match interactive_only : bool) (e : element) :
  text_match lower text_content tag_names exact_match interactive_only e →
  text_match lower text_content None false false e.
Proof.
  intros (_ & Hvis & _ & Htext). split; [done|]. split; [done|]. split; [done|].
  destruct exact_match; [|done]. rewrite Htext. apply substring_refl.
Qed.

Lemma find_text_in_relaxed (text_content : string) (tag_names : option (list string))
    (exact_match interactive_only : bool) (items : selector_map) (index : Z) :
  find_text_in lower text_content tag_names exact_match interactive_only items = Some index →
  ∃ index', find_text_in lower text_content None false false items = Some index'.
Proof.
  intros Hfound.
  pose proof (find_text_in_spec text_content tag_names exact_match interactive_only items) as Hs.
  rewrite Hfound in Hs. apply first_match_elem_of in Hs as (e & Hin & He).
  pose proof (find_text_in_spec text_content None false false items) as Hr.
  destruct (find_text_in lower text_content None false false items) as [j|]; [by exists j|].
  destruct (first_match_None _ _ _ _ Hr Hin). by eapply text_match_relax.
Qed.

(** X14.  Relaxing a search never loses its hit: when
    [find_element_by_text] finds an element under some tags, with
    [exact_match] or [interactive_only], the search for the same text
    on the same page with no tags, by containment, among all elements
    finds one too. *)
Theorem find_element_by_text_relaxed
    (get_state : Py selector_map) (text_content : string) (tag_names : option (list string))
    (exact_match interactive_only : bool) (index : Z) (w w' : world) :
  find_element_by_text lower get_state text_content tag_names exact_match interactive_only w
    = (Ok (Some index), w') →
  ∃ index', find_element_by_text lower get_state text_content None false false w
              = (Ok (Some index'), w').
Proof.
  unfold find_element_by_text, mbind, Py_bind, mret, Py_ret.
  destruct (get_state w) as [[items|e] w1]; [|done].
  intros [= Hfound ->]. apply find_text_in_relaxed in Hfound as [index' ->]. by exists index'.
Qed.

(** X15.  Two edge inputs of [find_element_by_text]: an empty list
    of tags filters nothing, as no list does; and the empty text,
    without [exact_match], is contained in every text, so the search
    returns the first element that passes the other filters. *)
Theorem find_element_by_text_edge_inputs
    (get_state : Py selector_map) (text_content : string) (tag_names : option (list string))
    (exact_match interactive_only : bool) (w : world) :
  find_element_by_text lower get_state text_content (Some []) exact_match interactive_only w
    = find_element_by_text lower get_state text_content None exact_match interactive_only w ∧
  match get_state w with
  | (Ok items, w') =>
      ∃ r, find_element_by_text lower get_state "" tag_names false interactive_only w
             = (Ok r, w') ∧
           first_match (λ e, (interactive_only = true → is_interactive e = Some true) ∧
                             is_element_hidden lower e = false ∧ tag_allowed lower tag_names e)
             items r
  | (Raise _, _) => True
  end.
Proof.
  unfold find_element_by_text, mbind, Py_bind, mret, Py_ret.
  destruct (get_state w) as [[items|e] w1]; [|done]. split.
  - do 2 f_equal. induction items as [|[index e] rest IH]; [done|].
    cbn [find_text_in]. by rewrite IH.
  - eexists. split; [done|].
    pose proof (find_text_in_spec "" tag_names false interactive_only items) as Hs.
    destruct (find_text_in lower "" tag_names false interactive_only items) as [i|]; simpl in *.
    + destruct Hs as (before & e & after & -> & (H1 & H2 & H3 & _) & Hbefore).
      exists before, e, after. split; [done|]. split; [done|].
      eapply Forall_impl; [exact Hbefore|]. intros [j e'] Hn (H1' & H2' & H3'). apply Hn.
      split; [done|]. split; [done|]. split; [done|]. apply substring_empty.
    + eapply Forall_impl; [exact Hs|]. intros [j e'] Hn (H1' & H2' & H3'). apply Hn.
      split; [done|]. split; [done|]. split; [done|]. apply substring_empty.
Qed.

Lemma find_input_in_spec (type placeholder : option string) (items : selector_map) :
  first_match (input_match lower type placeholder) items
    (find_input_in lower type placeholder items).
Proof.
  induction items as [|[index e] rest IH]; [by constructor|].
  cbn [find_input_in].
  destruct (String.eqb (lower (tag_name e)) "input") eqn:Htag; cbn [negb].
  2:{ apply first_match_skip; [|done]. intros (Ht & _).
      apply String.eqb_neq in Htag. done. }
  apply String.eqb_eq in Htag.
  destruct (is_element_hidden lower e) eqn:Hh.
  { apply first_match_skip; [|done]. intros (_ & Hvis & _). congruence. }
  destruct (given type && negb (bool_decide (element_type e = type))
            && negb (bool_decide (type = Some "text") && bool_decide (element_type e = Some "")))
    eqn:Hty.
  { apply first_match_skip; [|done]. intros (_ & _ & Hm & _).
    apply andb_true_iff in Hty as [Hty Hsp]. apply andb_true_iff in Hty as [Hg Hne].
    apply negb_true_iff, bool_decide_eq_false in Hne.
    apply negb_true_iff, andb_false_iff in Hsp.
    destruct (Hm Hg) as [?|[? ?]]; [done|].
    destruct Hsp as [Hsp|Hsp]; apply bool_decide_eq_false in Hsp; done. }
  assert (Htype : given type = true →
            element_type e = type ∨ (type = Some "text" ∧ element_type e = Some "")).
  { intros Hg. rewrite Hg in Hty. cbn [andb] in Hty.
    destruct (decide (element_type e = type)) as [?|Hne]; [by left|right].
    rewrite (bool_decide_eq_false_2 _ Hne) in Hty. cbn [negb andb] in Hty.
    apply negb_false_iff, andb_true_iff in Hty as [H1 H2].
    apply bool_decide_eq_true in H1, H2. done. }
  destruct (attributes e) as [attrs|] eqn:Hattrs.
  - destruct (given placeholder
              && negb (contains (lower (default "" placeholder))
                                (lower (default "" (attrs !! "placeholder"))))) eqn:Hph.
    + apply first_match_skip; [|done]. intros (_ & _ & _ & Hm).
      apply andb_true_iff in Hph as [Hg Hc]. apply negb_true_iff in Hc.
      specialize (Hm Hg attrs Hattrs). apply contains_spec in Hm. congruence.
    + apply first_match_here. split; [done|]. split; [done|]. split; [done|].
      intros Hg attrs' Heq. rewrite Hattrs in Heq. injection Heq as <-. rewrite Hg in Hph. cbn [andb] in Hph.
      apply negb_false_iff in Hph. by apply contains_spec.
  - apply first_match_here. split; [done|]. split; [done|]. split; [done|].
    intros _ attrs' ?. congruence.
Qed.

(** X16.  [find_input_element] raises what [context.get_state]
    raises and otherwise returns the index of the first entry of the
    selector map that is an [input], is not hidden, has the type asked
    for (an input whose type is the empty string passes for [text];
    one with no type at all does not) and, when it has attributes,
    whose placeholder contains the one asked for, letter case apart;
    it returns [None] exactly when no entry is such. *)
Theorem find_input_element_finds_first
    (get_state : Py selector_map) (type placeholder : option string) (w : world) :
  match get_state w with
  | (Ok items, w') =>
      ∃ r, find_input_element lower get_state type placeholder w = (Ok r, w') ∧
           first_match (input_match lower type placeholder) items r
  | (Raise e, w') => find_input_element lower get_state type placeholder w = (Raise e, w')
  end.
Proof.
  unfold find_input_element, mbind, Py_bind, mret, Py_ret.
  destruct (get_state w) as [[items|e] w']; [|done].
  eexists. split; [done|]. apply find_input_in_spec.
Qed.

Lemma given_false (s : option string) : given s = false → s = None ∨ s = Some "".
Proof. destruct s as [[|]|]; simpl; auto; done. Qed.

Lemma find_input_in_not_given (type placeholder : option string) (items : selector_map) :
  find_input_in lower type placeholder items
    = find_input_in lower (if given type then type else None)
        (if given placeholder then placeholder else None) items.
Proof.
  induction items as [|[index e] rest IH]; [done|]. cbn [find_input_in]. rewrite <- IH.
  destruct (given type) eqn:Hg, (given placeholder) eqn:Hp; try done;
    cbn [given andb]; rewrite ?Hg, ?Hp; cbn [andb]; by destruct (attributes e).
Qed.

(** X17.  Dropping the criteria of [find_input_element] never loses
    a hit, and an empty string is no criterion, as [None] is: when an
    input is found under a type and a placeholder, the search with each
    of them [None] or empty finds one too. *)
Theorem find_input_element_relaxed
    (get_state : Py selector_map) (type placeholder type' placeholder' : option string)
    (index : Z) (w w' : world) :
  find_input_element lower get_state type placeholder w = (Ok (Some index), w') →
  given type' = false → given placeholder' = false →
  ∃ index', find_input_element lower get_state type' placeholder' w = (Ok (Some index'), w').
Proof.
  unfold find_input_element, mbind, Py_bind, mret, Py_ret.
  destruct (get_state w) as [[items|e] w1]; [|done].
  intros [= Hfound ->] Ht Hp.
  rewrite (find_input_in_not_given type' placeholder'), Ht, Hp.
  pose proof (find_input_in_spec type placeholder items) as Hs.
  rewrite Hfound in Hs. apply first_match_elem_of in Hs as (e & Hin & (H1 & H2 & _)).
  pose proof (find_input_in_spec None None items) as Hr.
  destruct (find_input_in lower None None items) as [j|]; [by exists j|].
  destruct (first_match_None _ _ _ _ Hr Hin).
  split; [done|]. split; [done|]. split; intros; done.
Qed.

End FinderFacts.

(** * Typing text into an element *)

Ltac run_calls :=
  unfold click_and_type, fill_element, set_value, try_except, logger, modify,
    mbind, Py_bind, mret, Py_ret;
  repeat match goal with
    | |- context [match ?o with Some _ => _ | None => _ end] =>
        lazymatch type of o with
        | option string => destruct o eqn:?
        end
    | |- context [match ?f ?w with _ => _ end] =>
        lazymatch type of (f w) with
        | (result _ * world)%type => destruct (f w) as [[?|?] ?] eqn:?
        end
    end.

Section TextInputFacts.

Variable page : Type.
Variable action_result : Type.
Variable execute_action : string → Z → Py unit.
Variable get_current_page : Py page.
Variable keyboard_type : page → string → Py unit.
Variable fill : page → string → string → Py unit.
Variable evaluate : page → string → string → Py unit.
Variable get_state : Py selector_map.
Variable ActionResult : bool → string → Py action_result.

Lemma click_and_type_outcome (element_index : Z) (text : string) (w : world) :
  ∃ w', click_and_type page action_result execute_action get_current_page keyboard_type
          ActionResult element_index text w = (Ok None, w') ∨
        ∃ a w1, click_and_type page action_result execute_action get_current_page keyboard_type
                  ActionResult element_index text w = (Ok (Some a), w') ∧
                ActionResult true ("已点击并输入文本: " ++ text) w1 = (Ok a, w').
Proof. run_calls; eauto 8. Qed.

Lemma fill_element_outcome (element_index : Z) (text : string) (w : world) :
  ∃ w', fill_element page action_result get_current_page fill get_state
          ActionResult element_index text w = (Ok None, w') ∨
        ∃ a w1, fill_element page action_result get_current_page fill get_state
                  ActionResult element_index text w = (Ok (Some a), w') ∧
                ActionResult true ("已使用fill填充文本: " ++ text) w1 = (Ok a, w').
Proof. run_calls; eauto 8. Qed.

Lemma set_value_outcome (element_index : Z) (text : string) (w : world) :
  ∃ w', set_value page action_result get_current_page evaluate get_state
          ActionResult element_index text w = (Ok None, w') ∨
        ∃ a w1, set_value page action_result get_current_page evaluate get_state
                  ActionResult element_index text w = (Ok (Some a), w') ∧
                ActionResult true ("已使用JavaScript设置文本: " ++ text) w1 = (Ok a, w').
Proof. run_calls; eauto 8. Qed.

(** X21.  [input_text_to_element] ends in one of two ways only: it
    returns a result that [ActionResult] built with [success=True] and
    one of the three contents, or it raises an [Exception] whose message
    is always the same two fixed sentences; what made a method fail is
    logged and never reaches the caller. *)
Theorem input_text_to_element_outcome (element_index : Z) (text : string) (w : world) :
  ∃ w',
    (∃ a content w1,
       input_text_to_element page action_result execute_action get_current_page
         keyboard_type fill evaluate get_state ActionResult element_index text w
         = (Ok (inl a), w') ∧
       content ∈ success_contents text ∧ ActionResult true content w1 = (Ok a, w')) ∨
    (input_text_to_element page action_result execute_action get_current_page
       keyboard_type fill evaluate get_state ActionResult element_index text w
       = (Ok (inr ("无法输入文本到元素: " ++ all_methods_failed)), w') ∧
     last (log w') = Some (ERROR, "输入文本过程中发生错误: " ++ all_methods_failed)).
Proof.
  pose proof (click_and_type_outcome element_index text) as Hclick.
  pose proof (fill_element_outcome element_index text) as Hfill.
  pose proof (set_value_outcome element_index text) as Hset.
  unfold input_text_to_element.
  set (click := click_and_type _ _ _ _ _ _ _ _) in *.
  set (filled := fill_element _ _ _ _ _ _ _ _) in *.
  set (script := set_value _ _ _ _ _ _ _ _) in *.
  clearbody click filled script.
  unfold logger, modify, mbind, Py_bind, mret, Py_ret.
  destruct (Hclick (add_log (INFO, "首先尝试点击元素") w)) as (w1 & [->|(a & w0 & -> & Ha)]).
  2:{ exists w1. left. eexists a, _, w0. split; [done|]. split; [|exact Ha].
      unfold success_contents. set_solver. }
  destruct (Hfill w1) as (w2 & [->|(a & w0 & -> & Ha)]).
  2:{ exists w2. left. eexists a, _, w0. split; [done|]. split; [|exact Ha].
      unfold success_contents. set_solver. }
  destruct (Hset w2) as (w3 & [->|(a & w0 & -> & Ha)]).
  2:{ exists w3. left. eexists a, _, w0. split; [done|]. split; [|exact Ha].
      unfold success_contents. set_solver. }
  eexists. right. split; [done|].
  cbn [log add_log]. by rewrite last_snoc.
Qed.

(** X22.  The methods are tried in order and the first that works
    ends the function: when the click, the page lookup, the typing and
    the construction of the result succeed, that result is returned,
    and [page.fill], [page.evaluate] and [context.get_state] are never
    called (the outcome is the same whatever they would do). *)
Theorem input_text_to_element_stops_at_first_success
    (element_index : Z) (text : string) (w w1 w2 w3 w4 : world) (p : page)
    (a : action_result) :
  execute_action "click_element" element_index (add_log (INFO, "首先尝试点击元素") w)
    = (Ok tt, w1) →
  get_current_page (add_log (INFO, "元素点击成功") w1) = (Ok p, w2) →
  keyboard_type p text w2 = (Ok tt, w3) →
  ActionResult true ("已点击并输入文本: " ++ text)
    (add_log (INFO, "通过keyboard.type方法输入文本成功") w3) = (Ok a, w4) →
  ∀ fill' evaluate' get_state',
    input_text_to_element page action_result execute_action get_current_page
      keyboard_type fill' evaluate' get_state' ActionResult element_index text w
    = (Ok (inl a), w4).
Proof.
  intros Hclick Hpage Htype Hres fill' evaluate' get_state'.
  unfold input_text_to_element, click_and_type, try_except, logger, modify,
    mbind, Py_bind, mret, Py_ret.
  by rewrite Hclick, Hpage, Htype, Hres.
Qed.

Lemma fill_element_no_selector (element_index : Z) (text : string) (w : world) :
  (∀ w, ∃ items w', get_state w = (Ok items, w') ∧
                    selector_map_get items element_index ≫= selector = None) →
  ∃ w', ∀ fill',
    fill_element page action_result get_current_page fill' get_state
      ActionResult element_index text w = (Ok None, w').
Proof.
  intros Hstate.
  unfold fill_element, try_except, logger, modify, mbind at 1 2 3, Py_bind, mret, Py_ret.
  destruct (get_current_page _) as [[p|e] w1]; [|by eexists].
  destruct (Hstate w1) as (items & w2 & -> & ->). by eexists.
Qed.

Lemma set_value_no_selector (element_index : Z) (text : string) (w : world) :
  (∀ w, ∃ items w', get_state w = (Ok items, w') ∧
                    selector_map_get items element_index ≫= selector = None) →
  ∃ w', ∀ evaluate',
    set_value page action_result get_current_page evaluate' get_state
      ActionResult element_index text w = (Ok None, w').
Proof.
  intros Hstate.
  unfold set_value, try_except, logger, modify, mbind at 1 2 3, Py_bind, mret, Py_ret.
  destruct (get_current_page _) as [[p|e] w1]; [|by eexists].
  destruct (Hstate w1) as (items & w2 & -> & ->). by eexists.
Qed.

(** X23.  An element that is not in the selector map, or has no
    selector, is no error of its own: the second and the third method
    then end silently, [page.fill] and [page.evaluate] are never called,
    and when the click fails the function raises its fixed message. *)
Theorem input_text_to_element_without_selector
    (element_index : Z) (text : string) (w w1 : world) (e : exception) :
  (∀ w, ∃ items w', get_state w = (Ok items, w') ∧
                    selector_map_get items element_index ≫= selector = None) →
  execute_action "click_element" element_index (add_log (INFO, "首先尝试点击元素") w)
    = (Raise e, w1) →
  ∃ w', ∀ fill' evaluate',
    input_text_to_element page action_result execute_action get_current_page
      keyboard_type fill' evaluate' get_state ActionResult element_index text w
    = (Ok (inr ("无法输入文本到元素: " ++ all_methods_failed)), w').
Proof.
  intros Hstate Hclick.
  destruct (fill_element_no_selector element_index text
              (add_log (WARNING, "点击和键盘输入失败: " ++ exc_str e) w1) Hstate)
    as (w2 & Hfill).
  destruct (set_value_no_selector element_index text w2 Hstate) as (w3 & Hset).
  eexists. intros fill' evaluate'.
  unfold input_text_to_element.
  specialize (Hfill fill'). specialize (Hset evaluate').
  set (filled := fill_element _ _ _ _ _ _ _ _) in *.
  set (script := set_value _ _ _ _ _ _ _ _) in *.
  clearbody filled script.
  unfold click_and_type, try_except, logger, modify, mbind, Py_bind, mret, Py_ret.
  rewrite Hclick, Hfill, Hset. done.
Qed.

End TextInputFacts.

Lemma find_element_by_text_relaxed_witness :
  ∃ index', find_element_by_text ascii_lower (state_is login_page) "Login" None false false
              (boot ∅) = (Ok (Some index'), boot ∅).
Proof.
  apply (find_element_by_text_relaxed ascii_lower (state_is login_page) "Login"
           (Some ["button"]) true true 3 (boot ∅) (boot ∅)).
  vm_compute. reflexivity.
Defined.

Lemma find_input_element_relaxed_witness :
  ∃ index', find_input_element ascii_lower (state_is login_page) (Some "") None (boot ∅)
              = (Ok (Some index'), boot ∅).
Proof.
  apply (find_input_element_relaxed ascii_lower (state_is login_page)
           (Some "text") (Some "user") (Some "") None 1 (boot ∅) (boot ∅)).
  - vm_compute. reflexivity.
  - reflexivity.
  - reflexivity.
Defined.

Lemma input_text_to_element_stops_at_first_success_witness :
  ∃ w', input_text_to_element unit (bool * string) click_works current_page keyboard_works
          page_call_fails page_call_fails state_fails make_result 1 "alice" (boot ∅)
        = (Ok (inl (true, "已点击并输入文本: alice")), w').
Proof.
  eexists.
  eapply (input_text_to_element_stops_at_first_success unit (bool * string) click_works
            current_page keyboard_works make_result 1 "alice" (boot ∅)); reflexivity.
Defined.

Lemma input_text_to_element_without_selector_witness :
  ∃ w', input_text_to_element unit (bool * string) click_fails current_page keyboard_works
          page_call_fails page_call_fails (state_is login_page) make_result 7 "alice" (boot ∅)
        = (Ok (inr ("无法输入文本到元素: " ++ all_methods_failed)), w').
Proof.
  destruct (input_text_to_element_without_selector unit (bool * string) click_fails
              current_page keyboard_works (state_is login_page) make_result 7 "alice"
              (boot ∅) (add_log (INFO, "首先尝试点击元素") (boot ∅))
              (RuntimeError "element is detached")) as (w' & H).
  - intros w. exists login_page, w. split; [reflexivity|]. vm_compute. reflexivity.
  - reflexivity.
  - exists w'. apply H.
Defined.

(** * The actions of a controller *)

(** X24.  [get_available_actions] never raises.  It returns what
    [get_registered_actions] returns when the registry has that method
    and the call returns; in every other case, whatever the members of
    the registry are, the one action [click_element], and it touches
    nothing but the log. *)
Theorem get_available_actions_fails_soft (str_list : list string → string)
    (controller : controller_t) (w : world) :
  ∃ actions w',
    get_available_actions str_list controller w = (Ok actions, w') ∧
    match registry controller ≫= get_registered_actions with
    | Some get =>
        match get w with
        | (Ok registered, w1) => actions = registered ∧ w' = w1
        | (Raise e, w1) =>
            actions = ["click_element"] ∧
            w' = add_log (WARNING, "获取可用操作失败: " ++ exc_str e) w1
        end
    | None =>
        actions = ["click_element"] ∧ storage_untouched w w' ∧
        time_calls w' = time_calls w
    end.
Proof.
  unfold get_available_actions, try_except, raise, logger, modify,
    mbind at 1 2, Py_bind, mret, Py_ret.
  destruct controller as [[[[get|] members]|]]; cbn [registry get_registered_actions dir];
    cbn [mbind option_bind get_registered_actions].
  - destruct (get w) as [[registered|e] w1]; by eexists _, _.
  - destruct (List.filter _ members); by eexists _, _.
  - by eexists _, _.
Qed.
